(** * Sync-run orchestration of the console: a shallow embedding

    The development follows [webapps/console/lib/store/index.tsx]: the
    handler of the sync-run route (the [try] block that resolves the sync
    link, refuses a second concurrent run, loads the persisted checkpoint
    state, resolves the catalog and dispatches one read task) and its helper
    functions [catalogFromDb] and [selectStreamsFromCatalog].

    JavaScript values are modelled by a JSON type whose objects are finite
    maps of their own properties (what [Object.prototype] lends to every
    object is not part of the model); [undefined] is the [None] of an
    [option].  Rows and descriptors that the code reads fields from are
    records of those fields.  Database tables are lists of rows in storage
    order and the queries on them always answer; the handler runs in a
    small state-and-exception monad over the tables and a log of writes.
    What the handler delegates ([getUser], [verifyAccess],
    [getAppEndpoint], [randomUUID], [tryManageOauthCreds], [rpc],
    [syncError]) is a parameter of the model. *)

From stdpp Require Import gmap strings list pretty.
From Stdlib Require Import ZArith Ascii.

#[local] Set Warnings "-register-all,-clear-no-such-hyp".
#[local] Open Scope string_scope.
#[local] Open Scope nat_scope.

(** ** JavaScript values *)

(** Values that come out of a JSON column.  Numbers are only ever tested
    for being zero by this code, so they are kept as integers. *)
Inductive JSON : Type :=
| JNull
| JBool (b : bool)
| JNum (n : Z)
| JStr (s : string)
| JArr (l : list JSON)
| JObj (o : gmap string JSON).

(** [!!v] on a JSON value: [null], [false], [0] and the empty string are
    falsy, everything else (arrays and objects included, also empty ones)
    is truthy. *)
Definition truthy (v : JSON) : bool :=
  match v with
  | JNull => false
  | JBool b => b
  | JNum n => negb (n =? 0)%Z
  | JStr s => negb (String.eqb s "")
  | JArr _ => true
  | JObj _ => true
  end.

(** The same test on the result of a property read or on a variable that
    may still be [undefined]. *)
Definition js_truthy (v : option JSON) : bool :=
  match v with
  | Some j => truthy j
  | None => false
  end.

(** The own enumerable properties that an object spread [{...v}] copies:
    the fields of an object, the indexed elements of an array, the indexed
    characters of a string, and nothing for any other value. *)
Definition indexed {A} (f : A → JSON) (l : list A) : gmap string JSON :=
  list_to_map (imap (λ i x, (pretty i, f x)) l).

Definition spread (v : option JSON) : gmap string JSON :=
  match v with
  | Some (JObj o) => o
  | Some (JArr l) => indexed id l
  | Some (JStr s) => indexed (λ c, JStr (String c "")) (String.list_ascii_of_string s)
  | _ => ∅
  end.

(** [s.split(sep)] for a one-character separator: always at least one
    segment, one more than the number of separators in [s]. *)
Fixpoint split (sep : Ascii.ascii) (s : string) : list string :=
  match s with
  | "" => [""]
  | String c rest =>
      if Ascii.eqb c sep then "" :: split sep rest
      else match split sep rest with
           | [] => [String c ""]
           | seg :: segs => String c seg :: segs
           end
  end.

(** [s.replace(pattern, replacement)] for a string pattern: only the first
    occurrence is replaced. *)
Fixpoint replace (pattern replacement s : string) : string :=
  if String.prefix pattern s then
    replacement ++ String.substring (String.length pattern)
                                    (String.length s - String.length pattern) s
  else
    match s with
    | "" => ""
    | String c rest => String c (replace pattern replacement rest)
    end.

(** ** Catalog and stream selection *)

(** A stream of a source catalog: its name, its optional namespace and, in
    [other], the fields of the descriptor besides these two (schema, sync
    modes, ...). *)
Record AirbyteStream := {
  name : string;
  namespace : option string;
  other : gmap string JSON
}.

(** The descriptor as the JSON object it is stored and sent as. *)
Definition stream_json (s : AirbyteStream) : JSON :=
  JObj (<["name" := JStr (name s)]>
          (match namespace s with
           | Some ns => <["namespace" := JStr ns]> (other s)
           | None => other s
           end)).

Record Catalog := { streams : list AirbyteStream }.

(** The object [{ streams }] that [selectStreamsFromCatalog] returns. *)
Record ConfiguredCatalog := { configured_streams : list (gmap string JSON) }.

(** [s.namespace ? s.namespace + "." + s.name : s.name] *)
Definition stream_key (s : AirbyteStream) : string :=
  match namespace s with
  | Some ns => if truthy (JStr ns) then ns ++ "." ++ name s else name s
  | None => name s
  end.

(** The callback of [.filter]: [!!selectedStreams[key]]. *)
Definition is_selected (selectedStreams : gmap string JSON) (s : AirbyteStream) : bool :=
  js_truthy (selectedStreams !! stream_key s).

(** The callback of [.map]:
    [{ ...stream, destination_sync_mode: "overwrite", stream: s }]. *)
Definition configured_stream (selectedStreams : gmap string JSON) (s : AirbyteStream)
  : gmap string JSON :=
  let stream := selectedStreams !! stream_key s in
  <["stream" := stream_json s]>
    (<["destination_sync_mode" := JStr "overwrite"]> (spread stream)).

Definition selectStreamsFromCatalog (catalog : Catalog) (selectedStreams : gmap string JSON)
  : ConfiguredCatalog :=
  {| configured_streams :=
       map (configured_stream selectedStreams)
           (List.filter (is_selected selectedStreams) (streams catalog)) |}.

(** ** Tables, requests and results *)

(** The [config] column of a service: the connector package, its version
    and the remaining connection settings. *)
Module ServiceConfig.
Record t := { package : string; version : string; settings : gmap string JSON }.
End ServiceConfig.

(** The service row that [include: { from: true }] attaches to a link. *)
Record ConfigurationObject := { config : ServiceConfig.t }.

(** The [data] column of a sync link. *)
Module SyncData.
Record t := { storageKey : string; streams : gmap string JSON }.
End SyncData.

Module configurationObjectLink.
Record row := {
  id : string;
  workspaceId : string;
  deleted : bool;
  type : string;
  fromId : string;
  from : option ConfigurationObject;
  data : SyncData.t
}.
End configurationObjectLink.

Module source_task.
Record row := { sync_id : string; task_id : string; status : string }.
End source_task.

Module source_state.
Record row := { sync_id : string; stream : string; state : JSON }.
End source_state.

Module source_catalog.
Record row := { key : string; package : string; version : string; catalog : Catalog }.
End source_catalog.

(** The query of the route: [workspaceId], [syncId] and the optional
    [fullSync] string. *)
Record Query := { workspaceId : string; syncId : string; fullSync : option string }.

(** The request handed to [rpc(syncURL + "/read", ...)]. *)
Module ReadQuery.
Record t := { package : string; version : string; taskId : string; syncId : string }.
End ReadQuery.

Module ReadBody.
Record t := { config : JSON; catalog : ConfiguredCatalog; state : option JSON }.
End ReadBody.

Record RpcRequest := {
  url : string;
  method : string;
  headers : gmap string string;
  query : ReadQuery.t;
  body : ReadBody.t
}.

(** What the sync controller answers: [{ ok, error? }]. *)
Module RpcResponse.
Record t := { ok : bool; error : option string }.
End RpcResponse.

(** The route's [resultType]. *)
Module RunningTask.
Record t := { taskId : string; status : string; logs : string }.
End RunningTask.

Record Result := {
  ok : bool;
  error : option string;
  taskId : option string;
  status : option string;
  logs : option string;
  runningTask : option RunningTask.t
}.

(** What can be thrown: an [Error] with its message, or the route
    framework's [ApiError] with its message and HTTP status. *)
Inductive Exn :=
| Error (message : string)
| ApiError (message : string) (http_status : nat).

(** How a computation ends: with a value or with a thrown exception. *)
Inductive Outcome (A : Type) :=
| Returned (a : A)
| Thrown (e : Exn).
Arguments Returned {A} a.
Arguments Thrown {A} e.

(** The writes the handler can perform, in the order they happen. *)
Inductive Effect :=
| DeleteState (sync_id : string)
| Dispatch (request : RpcRequest).

(** The persisted tables together with the log of writes. *)
Record World := {
  links : list configurationObjectLink.row;
  tasks : list source_task.row;
  states : list source_state.row;
  catalogs : list source_catalog.row;
  trace : list Effect
}.

(** ** The handler's monad: state over [World], with exceptions *)

Definition M (A : Type) : Type := World → Outcome A * World.

#[export] Instance M_ret : MRet M := λ A a w, (Returned a, w).
#[export] Instance M_bind : MBind M := λ A B f m w,
  match m w with
  | (Returned a, w') => f a w'
  | (Thrown e, w') => (Thrown e, w')
  end.

Definition throw {A} (e : Exn) : M A := λ w, (Thrown e, w).

(** The result of a call to a collaborator, which may have thrown. *)
Definition await {A} (o : Outcome A) : M A := λ w, (o, w).

(** [try { body } catch (e) { return handler(e) }] *)
Definition try_catch {A} (body : M A) (handler : Exn → A) : M A := λ w,
  match body w with
  | (Returned a, w') => (Returned a, w')
  | (Thrown e, w') => (Returned (handler e), w')
  end.

(** ** Database operations *)

(** The [where] clause of the link lookup:
    [{ id: syncId, workspaceId, deleted: false, type: "sync" }]. *)
Definition sync_where (syncId workspaceId : string) (l : configurationObjectLink.row) : bool :=
  String.eqb (configurationObjectLink.id l) syncId
  && String.eqb (configurationObjectLink.workspaceId l) workspaceId
  && negb (configurationObjectLink.deleted l)
  && String.eqb (configurationObjectLink.type l) "sync".

(** [configurationObjectLink.findFirst({ where, include: { from: true } })] *)
Definition findFirst_sync (syncId workspaceId : string)
  : M (option configurationObjectLink.row) := λ w,
  (Returned (List.find (sync_where syncId workspaceId) (links w)), w).

(** The [where] clause of the task lookup: [{ sync_id, status: "RUNNING" }]. *)
Definition running_where (syncId : string) (t : source_task.row) : bool :=
  String.eqb (source_task.sync_id t) syncId && String.eqb (source_task.status t) "RUNNING".

(** [source_task.findFirst({ where })] *)
Definition findFirst_running (syncId : string) : M (option source_task.row) := λ w,
  (Returned (List.find (running_where syncId) (tasks w)), w).

(** [source_state.deleteMany({ where: { sync_id } })] *)
Definition deleteMany_state (syncId : string) : M unit := λ w,
  (Returned (),
   {| links := links w;
      tasks := tasks w;
      states := List.filter (λ r, negb (String.eqb (source_state.sync_id r) syncId)) (states w);
      catalogs := catalogs w;
      trace := trace w ++ [DeleteState syncId] |}).

(** [source_state.findMany({ where: { sync_id } })] *)
Definition findMany_state (syncId : string) : M (list source_state.row) := λ w,
  (Returned (List.filter (λ r, String.eqb (source_state.sync_id r) syncId) (states w)), w).

(** [catalogFromDb]: the catalog of the single matching row, [null] when
    the query matches no row or more than one. *)
Definition catalogFromDb (packageName version storageKey : string) : M (option Catalog) := λ w,
  let rows :=
    List.filter
      (λ r, String.eqb (source_catalog.key r) storageKey
            && String.eqb (source_catalog.package r) packageName
            && String.eqb (source_catalog.version r) version)
      (catalogs w) in
  (Returned (if Nat.eqb (length rows) 1 then source_catalog.catalog <$> head rows else None), w).

(** ** Decoding the persisted checkpoint state *)

(** [{ type: "STREAM", stream: { stream_descriptor: { name, namespace },
    stream_state } }]; a [namespace] that is [undefined] is a field the
    object does not carry. *)
Definition stream_message (namespace : option string) (name : string) (state : JSON) : JSON :=
  let stream_descriptor :=
    match namespace with
    | Some ns => {[ "name" := JStr name; "namespace" := JStr ns ]}
    | None => {[ "name" := JStr name ]}
    end in
  JObj {[ "type" := JStr "STREAM";
          "stream" := JObj {[ "stream_descriptor" := JObj stream_descriptor;
                              "stream_state" := state ]} ]}.

(** The callback of [.map] over the per-stream rows. *)
Definition decode_stream_row (r : source_state.row) : Outcome JSON :=
  let descr := split "." (source_state.stream r) in
  match descr with
  | [name] => Returned (stream_message None name (source_state.state r))
  | [namespace; name] => Returned (stream_message (Some namespace) name (source_state.state r))
  | _ => Thrown (Error ("Invalid stream name " ++ source_state.stream r))
  end.

(** [Array.prototype.map] with a callback that may throw: the rows are
    visited in order and the first exception ends the traversal. *)
Fixpoint map_throwing {A B} (f : A → Outcome B) (l : list A) : Outcome (list B) :=
  match l with
  | [] => Returned []
  | x :: rest =>
      match f x with
      | Thrown e => Thrown e
      | Returned y =>
          match map_throwing f rest with
          | Thrown e => Thrown e
          | Returned ys => Returned (y :: ys)
          end
      end
  end.

(** The callback of [.filter]:
    [r.stream !== "_LEGACY_STATE" && r.stream != "_GLOBAL_STATE"]. *)
Definition not_sentinel (r : source_state.row) : bool :=
  negb (String.eqb (source_state.stream r) "_LEGACY_STATE")
  && negb (String.eqb (source_state.stream r) "_GLOBAL_STATE").

(** The value of [stateObj] for the rows found ([None] is [undefined]). *)
Definition decode_state (stateRows : list source_state.row) : Outcome (option JSON) :=
  match stateRows with
  | [] => Returned None
  | r0 :: _ =>
      if Nat.eqb (length stateRows) 1 && String.eqb (source_state.stream r0) "_LEGACY_STATE" then
        Returned (Some (source_state.state r0))
      else if Nat.eqb (length stateRows) 1 && String.eqb (source_state.stream r0) "_GLOBAL_STATE" then
        Returned (Some (JArr [JObj {[ "type" := JStr "GLOBAL";
                                      "global" := source_state.state r0 ]}]))
      else
        match map_throwing decode_stream_row (List.filter not_sentinel stateRows) with
        | Returned messages => Returned (Some (JArr messages))
        | Thrown e => Thrown e
        end
  end.

(** [query.fullSync === "true" || query.fullSync === "1"] *)
Definition is_fullSync (q : Query) : bool :=
  match fullSync q with
  | Some s => String.eqb s "true" || String.eqb s "1"
  | None => false
  end.

(** The statements that compute [stateObj] (the spec's
    [loadCheckpointState]): a full sync deletes the rows and leaves
    [stateObj] undefined, any other run decodes the rows found. *)
Definition loadStateObj (q : Query) : M (option JSON) :=
  if is_fullSync q then
    _ ← deleteMany_state (syncId q); mret None
  else
    stateRows ← findMany_state (syncId q);
    await (decode_state stateRows).

(** ** Collaborators

    Everything the handler reads from its environment or delegates: the
    process environment, the request's authorization header, the user and
    access checks, the endpoint's base URL, the UUID the run draws, the
    OAuth credential manager, the call to the sync controller and the
    error reporter [syncError] of [lib/shared/errors]. *)
Record Env := {
  SYNCCTL_AUTH_KEY : option string;
  SYNCCTL_URL : option string;
  authorization : option string;
  getUser : option string;
  verifyAccess : string → string → Outcome unit;
  baseUrl : string;
  randomUUID : string;
  tryManageOauthCreds : ServiceConfig.t → string → Outcome JSON;
  rpc : RpcRequest → Outcome RpcResponse.t;
  syncError : string → Exn → bool → string → Result
}.

(** [requireDefined(v, message)] of the juava library. *)
Definition requireDefined {A} (v : option A) (message : string) : M A :=
  match v with
  | Some a => mret a
  | None => throw (Error message)
  end.

(** The object literal [{ ok: false, error }]. *)
Definition failure (message : string) : Result :=
  {| ok := false; error := Some message; taskId := None;
     status := None; logs := None; runningTask := None |}.

Section SyncRun.
Variable env : Env.

Definition statusUrl (workspaceId taskId syncId : string) : string :=
  baseUrl env ++ "/api/" ++ workspaceId ++ "/sources/tasks?taskId=" ++ taskId
  ++ "&syncId=" ++ syncId.

Definition logsUrl (workspaceId taskId syncId : string) : string :=
  baseUrl env ++ "/api/" ++ workspaceId ++ "/sources/logs?taskId=" ++ taskId
  ++ "&syncId=" ++ syncId.

(** The call [rpc(syncURL + "/read", ...)]: the request goes out, and the
    controller's answer (or the failure of the call) comes back. *)
Definition dispatch (request : RpcRequest) : M RpcResponse.t := λ w,
  (rpc env request,
   {| links := links w; tasks := tasks w; states := states w; catalogs := catalogs w;
      trace := trace w ++ [Dispatch request] |}).

(** The arguments of the call [rpc(syncURL + "/read", { method, headers,
    query, body })]; the body carries [state] only when [stateObj] is
    truthy. *)
Definition read_request (syncURL : string) (authHeaders : gmap string string) (q : Query)
    (service : ConfigurationObject) (taskId : string) (credentials : JSON)
    (configuredCatalog : ConfiguredCatalog) (stateObj : option JSON) : RpcRequest :=
  {| url := syncURL ++ "/read";
     method := "POST";
     headers := authHeaders ∪ {[ "Content-Type" := "application/json" ]};
     query := {| ReadQuery.package := ServiceConfig.package (config service);
                 ReadQuery.version := ServiceConfig.version (config service);
                 ReadQuery.taskId := taskId;
                 ReadQuery.syncId := syncId q |};
     body := {| ReadBody.config := credentials;
                ReadBody.catalog := configuredCatalog;
                ReadBody.state := if js_truthy stateObj then stateObj else None |} |}.

(** What the handler returns once the controller has answered. *)
Definition dispatch_result (q : Query) (taskId : string) (res : RpcResponse.t) : Result :=
  if negb (RpcResponse.ok res) then
    {| ok := false;
       error := Some (default "unknown error" (RpcResponse.error res));
       taskId := Some taskId;
       status := None; logs := None; runningTask := None |}
  else
    {| ok := true;
       error := None;
       taskId := Some taskId;
       status := Some (statusUrl (workspaceId q) taskId (syncId q));
       logs := Some (logsUrl (workspaceId q) taskId (syncId q));
       runningTask := None |}.

(** The body of the handler's [try] block. *)
Definition run (syncURL : string) (authHeaders : gmap string string) (q : Query) : M Result :=
  sync ← findFirst_sync (syncId q) (workspaceId q);
  match sync with
  | None => mret (failure ("Sync " ++ syncId q ++ " not found"))
  | Some sync =>
      running ← findFirst_running (syncId q);
      match running with
      | Some running =>
          mret {| ok := false;
                  error := Some "Sync is already running";
                  taskId := None; status := None; logs := None;
                  runningTask :=
                    Some {| RunningTask.taskId := source_task.task_id running;
                            RunningTask.status :=
                              statusUrl (workspaceId q) (source_task.task_id running) (syncId q);
                            RunningTask.logs :=
                              logsUrl (workspaceId q) (source_task.task_id running) (syncId q) |} |}
      | None =>
          match configurationObjectLink.from sync with
          | None => mret (failure "Service null not found")
          | Some service =>
              stateObj ← loadStateObj q;
              catalog ← catalogFromDb (ServiceConfig.package (config service))
                                      (ServiceConfig.version (config service))
                                      (SyncData.storageKey (configurationObjectLink.data sync));
              match catalog with
              | None =>
                  mret (failure "Catalog not found. Please run Refresh Catalog in Sync settings")
              | Some catalog =>
                  let configuredCatalog :=
                    selectStreamsFromCatalog
                      catalog (SyncData.streams (configurationObjectLink.data sync)) in
                  let taskId := randomUUID env in
                  credentials ← await (tryManageOauthCreds env (config service)
                                         (configurationObjectLink.fromId sync));
                  res ← dispatch (read_request syncURL authHeaders q service taskId
                                    credentials configuredCatalog stateObj);
                  mret (dispatch_result q taskId res)
              end
          end
      end
  end.

(** The [try]/[catch] of the handler (the spec's [runSync]): whatever the
    body throws is handed to [syncError]. *)
Definition runSync (syncURL : string) (authHeaders : gmap string string) (q : Query) : M Result :=
  try_catch (run syncURL authHeaders q)
    (λ e, syncError env "Error running sync" e false
            ("sync: " ++ syncId q ++ " workspace: " ++ workspaceId q)).

(** The whole handler: the authorization check and the environment
    lookups stand before the [try] block, so what they throw escapes. *)
Definition handler (q : Query) : M Result :=
  let syncAuthKey := default "" (SYNCCTL_AUTH_KEY env) in
  let token := default "" (authorization env) in
  _ ← (if negb (String.eqb (replace "Bearer " "" token) syncAuthKey)
          || negb (truthy (JStr token)) || negb (truthy (JStr syncAuthKey))
       then
         match getUser env with
         | None => throw (ApiError "Authorization Required" 401)
         | Some user => await (verifyAccess env user (workspaceId q))
         end
       else mret ());
  syncURL ← requireDefined (SYNCCTL_URL env)
              "env SYNCCTL_URL is not set. Sync Controller is required to run sources";
  let authHeaders : gmap string string :=
    if truthy (JStr syncAuthKey) then {[ "Authorization" := "Bearer " ++ syncAuthKey ]} else ∅ in
  runSync syncURL authHeaders q.

End SyncRun.

(** The writes a run appended to the log: those of [w'] that [w] did not
    have yet. *)
Definition writes (w w' : World) : list Effect :=
  drop (length (trace w)) (trace w').

(** The environment with another UUID drawn for the run. *)
Definition with_randomUUID (uuid : string) (env : Env) : Env :=
  {| SYNCCTL_AUTH_KEY := SYNCCTL_AUTH_KEY env;
     SYNCCTL_URL := SYNCCTL_URL env;
     authorization := authorization env;
     getUser := getUser env;
     verifyAccess := verifyAccess env;
     baseUrl := baseUrl env;
     randomUUID := uuid;
     tryManageOauthCreds := tryManageOauthCreds env;
     rpc := rpc env;
     syncError := syncError env |}.

(** ** Concrete scenarios *)

Definition exn_message (e : Exn) : string :=
  match e with
  | Error m => m
  | ApiError m _ => m
  end.

(** Modelled from the spec: [syncError] of [lib/shared/errors], which is
    not part of the sources at hand.  The spec says that every exception
    caught at the top level is converted into the [{ ok: false, error }]
    shape; the error text is taken to be the message followed by the
    exception's own message. *)
Definition syncError_model (message : string) (e : Exn) (mask : bool) (privateMessage : string)
  : Result :=
  failure (message ++ ": " ++ exn_message e).

(** An environment in which the service token authorizes the call, the
    credential manager answers [credentials] and the sync controller
    answers [response]. *)
Definition example_env_with (syncError : string → Exn → bool → string → Result)
    (uuid : string) (credentials : Outcome JSON) (response : Outcome RpcResponse.t) : Env :=
  {| SYNCCTL_AUTH_KEY := Some "secret";
     SYNCCTL_URL := Some "http://syncctl";
     authorization := Some "Bearer secret";
     getUser := None;
     verifyAccess := λ _ _, Returned ();
     baseUrl := "https://console";
     randomUUID := uuid;
     tryManageOauthCreds := λ _ _, credentials;
     rpc := λ _, response;
     syncError := syncError |}.

Definition example_env : Outcome JSON → Outcome RpcResponse.t → Env :=
  example_env_with syncError_model "task-42".

Definition response_ok : RpcResponse.t :=
  {| RpcResponse.ok := true; RpcResponse.error := None |}.

Definition response_boom : RpcResponse.t :=
  {| RpcResponse.ok := false; RpcResponse.error := Some "boom" |}.

Definition example_service : ConfigurationObject :=
  {| config := {| ServiceConfig.package := "airbyte/source-postgres";
                  ServiceConfig.version := "1.0.0";
                  ServiceConfig.settings := {[ "host" := JStr "db" ]} |} |}.

Definition example_catalog : Catalog :=
  {| streams := [ {| name := "a"; namespace := None; other := ∅ |};
                  {| name := "b"; namespace := Some "ns"; other := ∅ |} ] |}.

Definition example_selection : gmap string JSON :=
  {[ "a" := JObj {[ "sync_mode" := JStr "incremental" ]} ]}.

Definition example_link (deleted : bool) (from : option ConfigurationObject)
  : configurationObjectLink.row :=
  {| configurationObjectLink.id := "sync1";
     configurationObjectLink.workspaceId := "ws1";
     configurationObjectLink.deleted := deleted;
     configurationObjectLink.type := "sync";
     configurationObjectLink.fromId := "service1";
     configurationObjectLink.from := from;
     configurationObjectLink.data :=
       {| SyncData.storageKey := "key1"; SyncData.streams := example_selection |} |}.

Definition example_world (links : list configurationObjectLink.row)
    (tasks : list source_task.row) (states : list source_state.row) : World :=
  {| links := links;
     tasks := tasks;
     states := states;
     catalogs := [ {| source_catalog.key := "key1";
                      source_catalog.package := "airbyte/source-postgres";
                      source_catalog.version := "1.0.0";
                      source_catalog.catalog := example_catalog |} ];
     trace := [] |}.

Definition example_query (fullSync : option string) : Query :=
  {| workspaceId := "ws1"; syncId := "sync1"; fullSync := fullSync |}.

Definition state_row (sync_id stream : string) (state : JSON) : source_state.row :=
  {| source_state.sync_id := sync_id; source_state.stream := stream;
     source_state.state := state |}.

(** The error text and the task id of a returned result. *)
Definition returned_error (o : Outcome Result) : option string :=
  match o with
  | Returned r => error r
  | Thrown _ => None
  end.

Definition returned_taskId (o : Outcome Result) : option string :=
  match o with
  | Returned r => taskId r
  | Thrown _ => None
  end.

Definition running_task : source_task.row :=
  {| source_task.sync_id := "sync1"; source_task.task_id := "task-7";
     source_task.status := "RUNNING" |}.

(** ** The console's store of configuration objects

    The client-side helpers of [lib/store]: the configuration types, the
    keys under which the query cache holds the lists, and the hooks that
    read the cache.  A hook is modelled as the function it is of what
    [useQuery] hands it. *)

Definition allConfigTypes : list string := ["stream"; "service"; "function"; "destination"].

(** [array.includes(x)] on an array of strings. *)
Definition includes (l : list string) (x : string) : bool := existsb (String.eqb x) l.

Definition asConfigType (type : string) : Outcome string :=
  if negb (includes allConfigTypes type) then Thrown (Error ("Unknown config type " ++ type))
  else Returned type.

Module LinksParams.
Record t := { withData : option bool; type : option string }.
End LinksParams.

Definition getConfigObjectCacheKey (workspaceId type : string) : list string :=
  ["workspaceId=" ++ workspaceId; "config-object-type"; type].

Definition getLinksCacheKey (workspaceId : string) (opts : option LinksParams.t) : list string :=
  ["workspaceId=" ++ workspaceId; "links"; "withData=true"].

Definition getWorkspaceCacheKey (workspaceIdOrSlug : string) : list string :=
  ["workspace"; workspaceIdOrSlug].

(** A value a promise was rejected with: an [Error], or some other value,
    of which the code reads nothing but a [message] (a string when it is
    there). *)
Inductive Rejection :=
| RejectedError (e : Exn)
| RejectedValue (message : option string).

(** [e instanceof Error ? e : new Error(e?.message || "Unknown error")] *)
Definition toError (e : Rejection) : Exn :=
  match e with
  | RejectedError err => err
  | RejectedValue message =>
      Error (match message with
             | Some m => if truthy (JStr m) then m else "Unknown error"
             | None => "Unknown error"
             end)
  end.

(** What a hook reads of the result of [useQuery]: [error] is [None]
    when the query has not failed, and [data] is read only when the query
    neither loads nor has failed. *)
Module QueryResult.
Record t (T : Type) := { isLoading : bool; error : option Rejection; data : T }.
Arguments isLoading {T} _.
Arguments error {T} _.
Arguments data {T} _.
End QueryResult.

(** The store's [Result<T>]. *)
Inductive StoreResult (T : Type) :=
| Loading
| Loaded (data : T)
| Failed (error : Exn).
Arguments Loading {T}.
Arguments Loaded {T} data.
Arguments Failed {T} error.

(** The callback of [.filter] in [useConfigObjectLinksLoader]:
    [!opts?.type || link.type === opts?.type]. *)
Definition link_of_type (opts : option LinksParams.t) (link : configurationObjectLink.row)
  : bool :=
  let type := opts ≫= LinksParams.type in
  negb (match type with Some t => truthy (JStr t) | None => false end)
  || match type with
     | Some t => String.eqb (configurationObjectLink.type link) t
     | None => false
     end.

Definition useConfigObjectLinksLoader (opts : option LinksParams.t)
    (queryRes : QueryResult.t (list configurationObjectLink.row))
  : StoreResult (list configurationObjectLink.row) :=
  if QueryResult.isLoading queryRes then Loading
  else match QueryResult.error queryRes with
       | Some e => Failed (toError e)
       | None => Loaded (List.filter (link_of_type opts) (QueryResult.data queryRes))
       end.

Definition useConfigObjectLinks (opts : option LinksParams.t)
    (queryRes : QueryResult.t (list configurationObjectLink.row))
  : Outcome (list configurationObjectLink.row) :=
  match useConfigObjectLinksLoader opts queryRes with
  | Loading =>
      Thrown (Error "useConfigObjectLinks() assumes that all config objects are already loaded, but they are loading. use useConfigObjectListLoader() instead.")
  | Failed e => Thrown e
  | Loaded data => Returned data
  end.

(** A configuration object of any type: its [id] and its other fields. *)
Module ConfigObject.
Record t := { id : string; fields : gmap string JSON }.
End ConfigObject.

Definition useConfigObjectListLoader (type : string)
    (queryRes : QueryResult.t (list ConfigObject.t)) : StoreResult (list ConfigObject.t) :=
  if QueryResult.isLoading queryRes then Loading
  else match QueryResult.error queryRes with
       | Some e => Failed (toError e)
       | None => Loaded (QueryResult.data queryRes)
       end.

Definition useConfigObjectListIfAvailable (type : string)
    (queryRes : QueryResult.t (list ConfigObject.t)) : option (list ConfigObject.t) :=
  match useConfigObjectListLoader type queryRes with
  | Loaded data => Some data
  | _ => None
  end.

Definition useConfigObjectList (type : string)
    (queryRes : QueryResult.t (list ConfigObject.t)) : Outcome (list ConfigObject.t) :=
  match useConfigObjectListLoader type queryRes with
  | Loading =>
      Thrown (Error ("useConfigObjectList() assumes that instance of " ++ type
                     ++ " is already loaded, but it is loading. use useConfigObjectListLoader() instead."))
  | Failed e => Thrown e
  | Loaded data => Returned data
  end.

(** [useConfigObject]: [list.find(o => o.id === id)]. *)
Definition useConfigObject (type id : string)
    (queryRes : QueryResult.t (list ConfigObject.t)) : Outcome (option ConfigObject.t) :=
  match useConfigObjectList type queryRes with
  | Returned list => Returned (List.find (λ o, String.eqb (ConfigObject.id o) id) list)
  | Thrown e => Thrown e
  end.

(** ** The JSON fetcher of the functions library

    [jsonFetcher] of [core-functions/src/functions/lib/json-fetch.ts].  The
    platform's [fetch], [JSON.parse] and the two uses of [JSON.stringify]
    are parameters; the fetcher's run is its outcome together with the
    requests it made and the lines it logged. *)

Module FetchOpts.
Record t := {
  method : option string;
  headers : option (gmap string string);
  body : option string
}.
End FetchOpts.

Module JsonFetchOpts.
Record t := {
  method : option string;
  headers : option (gmap string string);
  body : option JSON
}.
End JsonFetchOpts.

Module FetchResponse.
Record t := { ok : bool; status : N; statusText : string; text : string }.
End FetchResponse.

Definition maxResponseLen : nat := 300.

(** What the fetcher rejects with: its own [JsonFetchError], a plain
    [Error], or whatever [fetch] threw. *)
Inductive FetchError :=
| JsonFetchError (responseStatus : N) (message : string)
| RequestError (message : string)
| FetchThrew (e : Exn).

Inductive LogLevel := LogDebug | LogWarn.

Record FetchRun := {
  outcome : FetchError + option JSON;
  requests : list (string * FetchOpts.t);
  logged : list (LogLevel * string)
}.

Section JsonFetch.
Variable JSON_parse : string → option JSON.
Variable JSON_stringify : JSON → string.
Variable JSON_stringify_indented : JSON → string.

(** [prettifyJson]: the text of a falsy value, the indented form of a
    JSON text or of a value, and the text itself when it does not parse. *)
Definition prettifyJson (bodyStr : option JSON) : string :=
  if negb (js_truthy bodyStr) then
    match bodyStr with
    | None => "undefined"
    | Some JNull => "null"
    | Some (JBool _) => "false"
    | Some (JNum _) => "0"
    | Some _ => ""
    end
  else
    match bodyStr with
    | Some (JStr s) =>
        match JSON_parse s with
        | Some v => JSON_stringify_indented v
        | None => s
        end
    | Some v => JSON_stringify_indented v
    | None => "undefined"
    end.

(** [options?.method || (options?.body ? "POST" : "GET")] *)
Definition request_method (options : option JsonFetchOpts.t) : string :=
  match options ≫= JsonFetchOpts.method with
  | Some m =>
      if truthy (JStr m) then m
      else if js_truthy (options ≫= JsonFetchOpts.body) then "POST" else "GET"
  | None => if js_truthy (options ≫= JsonFetchOpts.body) then "POST" else "GET"
  end.

(** [typeof body === "string" ? body : body ? JSON.stringify(body) : undefined] *)
Definition request_body (options : option JsonFetchOpts.t) : option string :=
  match options ≫= JsonFetchOpts.body with
  | Some (JStr s) => Some s
  | Some v => if truthy v then Some (JSON_stringify v) else None
  | None => None
  end.

(** The options handed to [fetch]: the caller's headers under the two
    JSON headers, the method and the body text. *)
Definition fetch_request (options : option JsonFetchOpts.t) : FetchOpts.t :=
  {| FetchOpts.headers :=
       Some (<["Accept" := "application/json"]>
               (<["Content-Type" := "application/json"]>
                  (default ∅ (options ≫= JsonFetchOpts.headers))));
     FetchOpts.method := Some (request_method options);
     FetchOpts.body := request_body options |}.

(** The response text as the error message shows it: cut after
    [maxResponseLen] characters, with a note of the full length. *)
Definition shown_text (responseText : string) : string :=
  if maxResponseLen <? String.length responseText then
    String.substring 0 maxResponseLen responseText
    ++ "...(truncated, total length: " ++ pretty (String.length responseText) ++ ")"
  else responseText.

(** The line logged in debug mode. *)
Definition debug_message (method url : string) (response : FetchResponse.t) : string :=
  method ++ " " ++ url ++ " → "
  ++ (if FetchResponse.ok response then "🟢" else "🔴")
  ++ pretty (FetchResponse.status response) ++ " "
  ++ FetchResponse.statusText response ++ ".
📩Response body"
  ++ (if truthy (JStr (FetchResponse.text response))
      then ": 
" ++ prettifyJson (Some (JStr (FetchResponse.text response)))
      else " is empty").

Variable fetch : string → FetchOpts.t → Outcome FetchResponse.t.
Variable debug : bool.

Definition jsonFetcher (url : string) (options : option JsonFetchOpts.t) : FetchRun :=
  let method := request_method options in
  let request := fetch_request options in
  match fetch url request with
  | Thrown e => {| outcome := inl (FetchThrew e); requests := [(url, request)]; logged := [] |}
  | Returned response =>
      let responseText := FetchResponse.text response in
      let logged :=
        if debug then
          [(if FetchResponse.ok response then LogDebug else LogWarn,
            debug_message method url response)]
        else [] in
      let outcome :=
        if negb (FetchResponse.ok response) then
          inl (JsonFetchError (FetchResponse.status response)
                 (method ++ " " ++ url ++ " failed with status "
                  ++ pretty (FetchResponse.status response) ++ " "
                  ++ FetchResponse.statusText response ++ ": " ++ shown_text responseText))
        else if String.eqb responseText "" then inr None
        else
          match JSON_parse responseText with
          | Some v => inr (Some v)
          | None =>
              inl (RequestError ("Request error: " ++ method ++ " " ++ url
                                 ++ " returned unparseable JSON: " ++ responseText))
          end in
      {| outcome := outcome; requests := [(url, request)]; logged := logged |}
  end.

End JsonFetch.

(** ** Testing a service's connection

    [onTest] of the services page: the check is started with a POST, and
    its result is polled for up to sixty times.  The answers of [rpc] are
    given by the number of the call; the pauses between the polls are not
    modelled.  The run of a test is what it returns and the calls it
    made. *)

Record TestRun := {
  test_result : JSON;
  test_calls : list (string * option string)
}.

Definition internal_error : JSON :=
  JObj {[ "ok" := JBool false; "error" := JStr "Internal error, see logs for details" ]}.

Definition test_timeout : JSON :=
  JObj {[ "ok" := JBool false; "error" := JStr "Connection test timeout." ]}.

(** An answer whose [pending] is truthy, for which the loop goes on. *)
Definition is_pending (answer : Outcome (option JSON)) : bool :=
  match answer with
  | Returned (Some (JObj o)) => js_truthy (o !! "pending")
  | _ => false
  end.

Section OnTest.
Variable workspace_id obj_id queryId : string.
(** [jhash("md5", hash(JSON.parse(obj.credentials)))], which throws when
    the credentials do not parse. *)
Variable credentialsHash : Outcome string.
Variable rpc : nat → Outcome (option JSON).

Definition check_url (storageKey : string) : string :=
  "/api/" ++ workspace_id ++ "/sources/check?storageKey=" ++ storageKey.

(** The [for] loop; a property read on [undefined] or [null] throws, on
    any other value that is not an object it gives [undefined]. *)
Fixpoint poll (url : string) (remaining : nat) (calls : list (string * option string))
  : TestRun :=
  match remaining with
  | 0 => {| test_result := test_timeout; test_calls := calls |}
  | S remaining' =>
      let calls' := (calls ++ [(url, None)])%list in
      match rpc (length calls) with
      | Thrown _ => {| test_result := internal_error; test_calls := calls' |}
      | Returned None | Returned (Some JNull) =>
          {| test_result := internal_error; test_calls := calls' |}
      | Returned (Some (JObj o)) =>
          if negb (js_truthy (o !! "pending")) then
            {| test_result := JObj o; test_calls := calls' |}
          else poll url remaining' calls'
      | Returned (Some res) => {| test_result := res; test_calls := calls' |}
      end
  end.

Definition onTest : TestRun :=
  match credentialsHash with
  | Thrown _ => {| test_result := internal_error; test_calls := [] |}
  | Returned h =>
      let storageKey := workspace_id ++ "_" ++ obj_id ++ "_" ++ h ++ "_" ++ queryId in
      let url := check_url storageKey in
      let calls := [(url, Some "POST")] in
      match rpc 0 with
      | Thrown _ => {| test_result := internal_error; test_calls := calls |}
      | Returned None | Returned (Some JNull) =>
          {| test_result := internal_error; test_calls := calls |}
      | Returned (Some (JObj o)) =>
          if js_truthy (o !! "error") then {| test_result := JObj o; test_calls := calls |}
          else poll url 60 calls
      | Returned (Some _) => poll url 60 calls
      end
  end.

End OnTest.

(** ** More concrete scenarios *)

(** The example world without any stored catalog. *)
Definition example_world_without_catalog (states : list source_state.row) : World :=
  {| links := [example_link false (Some example_service)];
     tasks := [];
     states := states;
     catalogs := [];
     trace := [] |}.

(** The request the example run dispatches when it sends [state]. *)
Definition example_request (state : option JSON) : RpcRequest :=
  read_request "http://syncctl" ∅ (example_query None) example_service "task-42" JNull
    (selectStreamsFromCatalog example_catalog example_selection) state.

(** A loaded query over two links, one of each type. *)
Definition example_links_query : QueryResult.t (list configurationObjectLink.row) :=
  {| QueryResult.isLoading := false;
     QueryResult.error := None;
     QueryResult.data :=
       [ example_link false None;
         {| configurationObjectLink.id := "push1";
            configurationObjectLink.workspaceId := "ws1";
            configurationObjectLink.deleted := false;
            configurationObjectLink.type := "push";
            configurationObjectLink.fromId := "stream1";
            configurationObjectLink.from := None;
            configurationObjectLink.data :=
              {| SyncData.storageKey := ""; SyncData.streams := ∅ |} |} ] |}.

(** A loaded query over two configuration objects. *)
Definition example_objects_query : QueryResult.t (list ConfigObject.t) :=
  {| QueryResult.isLoading := false;
     QueryResult.error := None;
     QueryResult.data :=
       [ {| ConfigObject.id := "d1"; ConfigObject.fields := ∅ |};
         {| ConfigObject.id := "d2"; ConfigObject.fields := {[ "name" := JStr "two" ]} |} ] |}.

(** A parser that knows one text, and a platform that answers every
    request with the given response. *)
Definition example_parse (s : string) : option JSON :=
  if String.eqb s "{}" then Some (JObj ∅) else None.

Definition example_fetcher (response : FetchResponse.t) (options : option JsonFetchOpts.t)
  : FetchRun :=
  jsonFetcher example_parse (λ _, "{}") (λ _, "{}") (λ _ _, Returned response) false
    "https://api.example/" options.

Definition not_found_response : FetchResponse.t :=
  {| FetchResponse.ok := false; FetchResponse.status := 404;
     FetchResponse.statusText := "Not Found"; FetchResponse.text := "no such thing" |}.

(** The example environment with other settings of the gate: the
    configured key, the controller's URL and the authorization header. *)
Definition gate_env (key url token : option string) : Env :=
  {| SYNCCTL_AUTH_KEY := key;
     SYNCCTL_URL := url;
     authorization := token;
     getUser := None;
     verifyAccess := λ _ _, Returned ();
     baseUrl := "https://console";
     randomUUID := "task-42";
     tryManageOauthCreds := λ _ _, Returned JNull;
     rpc := λ _, Returned response_ok;
     syncError := syncError_model |}.

(** Answers to a connection test: the POST is accepted, the polls answer
    pending up to the given call (always, when none is given), and then
    the check has passed. *)
Definition example_poller (settles_after : option nat) (call : nat) : Outcome (option JSON) :=
  if Nat.eqb call 0 then Returned (Some (JObj {[ "ok" := JBool true ]}))
  else
    match settles_after with
    | Some last_pending =>
        if call <=? last_pending then Returned (Some (JObj {[ "pending" := JBool true ]}))
        else Returned (Some (JObj {[ "ok" := JBool true ]}))
    | None => Returned (Some (JObj {[ "pending" := JBool true ]}))
    end.

(** * Properties *)

(** Exposes the first statements of the [try] block, so that the facts
    known about the lookups can be rewritten one after the other. *)
Ltac enter_run :=
  unfold run, mbind, M_bind, findFirst_sync, findFirst_running; cbv beta iota.

Ltac pass_check H := rewrite H; cbv beta iota zeta.

(** ** Lists and strings *)

Lemma filter_sublist {A} (p : A → bool) (l : list A) : sublist (List.filter p l) l.
Proof.
  induction l as [|x l IH]; simpl.
  - constructor.
  - destruct (p x); [by apply sublist_skip | by apply sublist_cons].
Qed.

Lemma elem_of_filter {A} (p : A → bool) (l : list A) (x : A) :
  x ∈ List.filter p l ↔ x ∈ l ∧ p x = true.
Proof. rewrite !list_elem_of_In. apply filter_In. Qed.

Lemma map_filter_ext {A B} (f g : A → B) (p q : A → bool) (l : list A) :
  (∀ x, x ∈ l → p x = q x) →
  (∀ x, x ∈ l → p x = true → f x = g x) →
  map f (List.filter p l) = map g (List.filter q l).
Proof.
  induction l as [|x l IH]; intros Hpq Hfg; simpl; [done|].
  rewrite <- (Hpq x) by left.
  destruct (p x) eqn:Hp; simpl.
  - rewrite (Hfg x) by (done || left). f_equal.
    apply IH; intros; [apply Hpq | apply Hfg]; (done || by right).
  - apply IH; intros; [apply Hpq | apply Hfg]; (done || by right).
Qed.

Lemma replace_unfold (pattern replacement s : string) :
  replace pattern replacement s
  = if String.prefix pattern s then
      replacement ++ String.substring (String.length pattern)
                                      (String.length s - String.length pattern) s
    else
      match s with
      | "" => ""
      | String c rest => String c (replace pattern replacement rest)
      end.
Proof. by destruct s. Qed.

Lemma prefix_app (p s : string) : String.prefix p (p ++ s) = true.
Proof.
  induction p as [|a p IH]; simpl; [by destruct s|].
  by destruct (Ascii.ascii_dec a a).
Qed.

Lemma substring_all (s : string) : String.substring 0 (String.length s) s = s.
Proof. induction s as [|a s IH]; simpl; [done | by rewrite IH]. Qed.

Lemma substring_app (p s : string) :
  String.substring (String.length p) (String.length (p ++ s) - String.length p) (p ++ s) = s.
Proof.
  induction p as [|a p IH]; simpl.
  - rewrite Nat.sub_0_r. apply substring_all.
  - apply IH.
Qed.

(** Replacing a prefix: ["Bearer x".replace("Bearer ", "")] is ["x"]. *)
Lemma replace_prefix (pattern replacement s : string) :
  replace pattern replacement (pattern ++ s) = replacement ++ s.
Proof. by rewrite replace_unfold, prefix_app, substring_app. Qed.

Lemma truthy_false (v : JSON) :
  truthy v = false ↔ v = JNull ∨ v = JBool false ∨ v = JNum 0 ∨ v = JStr "".
Proof.
  split.
  - destruct v as [|b|n|s| |]; simpl; intros H; try done.
    + auto.
    + subst b. auto.
    + apply negb_false_iff, Z.eqb_eq in H. subst n. auto.
    + apply negb_false_iff, String.eqb_eq in H. subst s. auto.
  - intros [->|[->|[->| ->]]]; reflexivity.
Qed.

(** ** Stream selection *)

Lemma stream_key_cases (s : AirbyteStream) :
  stream_key s =
    match namespace s with
    | Some ns => if decide (ns = "") then name s else ns ++ "." ++ name s
    | None => name s
    end.
Proof.
  unfold stream_key. destruct (namespace s) as [ns|]; [|done].
  simpl. destruct (decide (ns = "")) as [->|Hne]; [done|].
  destruct (String.eqb_spec ns ""); done.
Qed.

Lemma configured_stream_lookup (selectedStreams : gmap string JSON) (s : AirbyteStream) (k : string) :
  configured_stream selectedStreams s !! k =
    if decide (k = "stream") then Some (stream_json s)
    else if decide (k = "destination_sync_mode") then Some (JStr "overwrite")
    else spread (selectedStreams !! stream_key s) !! k.
Proof.
  unfold configured_stream.
  destruct (decide (k = "stream")) as [->|Hs]; [by rewrite lookup_insert_eq|].
  rewrite lookup_insert_ne by done.
  destruct (decide (k = "destination_sync_mode")) as [->|Hd]; [by rewrite lookup_insert_eq|].
  by rewrite lookup_insert_ne.
Qed.



(** ** The run *)

Lemma find_none_iff {A} (p : A → bool) (l : list A) :
  List.find p l = None ↔ ∀ x, x ∈ l → p x = false.
Proof.
  split.
  - intros H x Hx%list_elem_of_In. by eapply find_none.
  - induction l as [|x l IH]; intros H; simpl; [done|].
    rewrite (H x) by left. apply IH. intros y Hy. apply H. by right.
Qed.

Lemma find_is_some {A} (p : A → bool) (l : list A) (x : A) :
  x ∈ l → p x = true → ∃ y, List.find p l = Some y ∧ y ∈ l ∧ p y = true.
Proof.
  intros Hx Hp. destruct (List.find p l) as [y|] eqn:Hfind.
  - exists y. apply find_some in Hfind as [Hy%list_elem_of_In ?]. done.
  - rewrite find_none_iff in Hfind. rewrite (Hfind x Hx) in Hp. done.
Qed.

Lemma sync_where_spec (syncId workspaceId : string) (l : configurationObjectLink.row) :
  sync_where syncId workspaceId l = true ↔
    configurationObjectLink.id l = syncId
    ∧ configurationObjectLink.workspaceId l = workspaceId
    ∧ configurationObjectLink.deleted l = false
    ∧ configurationObjectLink.type l = "sync".
Proof.
  unfold sync_where. rewrite !andb_true_iff, negb_true_iff, !String.eqb_eq. tauto.
Qed.

Lemma running_where_spec (syncId : string) (t : source_task.row) :
  running_where syncId t = true ↔
    source_task.sync_id t = syncId ∧ source_task.status t = "RUNNING".
Proof. unfold running_where. by rewrite andb_true_iff, !String.eqb_eq. Qed.

Lemma writes_same (w : World) : writes w w = [].
Proof. unfold writes. by rewrite drop_all. Qed.

Lemma last_snoc_eq {A} (l : list A) (x y : A) : last (l ++ [x]) = Some y → x = y.
Proof. rewrite last_snoc. congruence. Qed.

(** *** Decoding *)

Lemma map_throwing_thrown {A B} (f : A → Outcome B) (l : list A) (x : A) (e0 : Exn) :
  x ∈ l → f x = Thrown e0 →
  ∃ bad e, bad ∈ l ∧ f bad = Thrown e ∧ map_throwing f l = Thrown e.
Proof.
  induction l as [|y l IH]; intros Hx Hfx; [by apply elem_of_nil in Hx|].
  simpl. destruct (f y) as [b|e] eqn:Hfy.
  - apply elem_of_cons in Hx as [->|Hx]; [congruence|].
    destruct (IH Hx Hfx) as (bad & e & Hbad & Hfbad & ->).
    exists bad, e. split_and!; [by right | done | done].
  - exists y, e. split_and!; [by left | done | done].
Qed.

Lemma map_throwing_returned {A B} (f : A → Outcome B) (l : list A) :
  (∀ x, x ∈ l → ∃ y, f x = Returned y) →
  ∃ ys, map_throwing f l = Returned ys ∧ Forall2 (λ x y, f x = Returned y) l ys.
Proof.
  induction l as [|x l IH]; intros Hall; simpl.
  - exists []. by split.
  - destruct (Hall x) as [y Hy]; [by left|]. rewrite Hy.
    destruct IH as (ys & -> & Hys); [intros z Hz; apply Hall; by right|].
    exists (y :: ys). split; [done|]. by constructor.
Qed.

Lemma decode_stream_row_cases (r : source_state.row) :
  match split "." (source_state.stream r) with
  | [name] => decode_stream_row r = Returned (stream_message None name (source_state.state r))
  | [namespace; name] =>
      decode_stream_row r
      = Returned (stream_message (Some namespace) name (source_state.state r))
  | _ => decode_stream_row r = Thrown (Error ("Invalid stream name " ++ source_state.stream r))
  end.
Proof.
  unfold decode_stream_row.
  by destruct (split "." (source_state.stream r)) as [|? [|? [|? ?]]].
Qed.

(** The rows reach the per-stream branch when there is more than one of
    them, or exactly one whose stream is not a sentinel. *)
Lemma decode_state_per_stream (stateRows : list source_state.row) :
  2 ≤ length stateRows ∨ (∃ r, stateRows = [r] ∧ not_sentinel r = true) →
  decode_state stateRows
  = match map_throwing decode_stream_row (List.filter not_sentinel stateRows) with
    | Returned messages => Returned (Some (JArr messages))
    | Thrown e => Thrown e
    end.
Proof.
  intros [Hlen | (r & -> & Hr)].
  - destruct stateRows as [|r0 [|r1 rest]]; simpl in Hlen; [lia | lia |].
    unfold decode_state. by cbn [length Nat.eqb andb].
  - unfold decode_state, not_sentinel in *. cbn [length Nat.eqb andb].
    apply andb_true_iff in Hr as [Hl%negb_true_iff Hg%negb_true_iff].
    by rewrite Hl, Hg.
Qed.

(** *** Loading the state *)

(** What [loadStateObj] does to the world: a full sync removes the rows of
    the sync and logs the deletion, any other run leaves the world as it
    is and decodes the rows of the sync. *)
Lemma loadStateObj_fullSync (q : Query) (w : World) :
  is_fullSync q = true →
  loadStateObj q w = (Returned None, snd (deleteMany_state (syncId q) w)).
Proof. intros H. unfold loadStateObj. by rewrite H. Qed.

Lemma loadStateObj_incremental (q : Query) (w : World) :
  is_fullSync q = false →
  loadStateObj q w
  = (decode_state (List.filter (λ r, String.eqb (source_state.sync_id r) (syncId q)) (states w)),
     w).
Proof. intros H. unfold loadStateObj. by rewrite H. Qed.

Lemma loadStateObj_world (q : Query) (w w1 : World) (o : Outcome (option JSON)) :
  loadStateObj q w = (o, w1) →
  links w1 = links w ∧ tasks w1 = tasks w ∧ catalogs w1 = catalogs w
  ∧ writes w w1 = (if is_fullSync q then [DeleteState (syncId q)] else []).
Proof.
  destruct (is_fullSync q) eqn:Hfull; intros H.
  - rewrite loadStateObj_fullSync in H by done. simplify_eq/=.
    unfold writes; simpl. by rewrite drop_app_length.
  - rewrite loadStateObj_incremental in H by done. simplify_eq/=.
    by rewrite writes_same.
Qed.

Lemma loadStateObj_trace (q : Query) (w w1 : World) (o : Outcome (option JSON)) :
  loadStateObj q w = (o, w1) → trace w1 = (trace w ++ writes w w1)%list.
Proof.
  destruct (is_fullSync q) eqn:Hfull; intros H.
  - rewrite loadStateObj_fullSync in H by done. simplify_eq/=.
    unfold writes; simpl. by rewrite drop_app_length.
  - rewrite loadStateObj_incremental in H by done. simplify_eq/=.
    by rewrite writes_same, app_nil_r.
Qed.

Section Run.
Context (env : Env) (syncURL : string) (authHeaders : gmap string string).

(** The run, one exit at a time. *)

Lemma run_no_sync (q : Query) (w : World) :
  List.find (sync_where (syncId q) (workspaceId q)) (links w) = None →
  run env syncURL authHeaders q w
  = (Returned (failure ("Sync " ++ syncId q ++ " not found")), w).
Proof.
  intros Hsync. enter_run. by pass_check Hsync.
Qed.

Lemma run_running (q : Query) (w : World) (sync : configurationObjectLink.row)
    (running : source_task.row) :
  List.find (sync_where (syncId q) (workspaceId q)) (links w) = Some sync →
  List.find (running_where (syncId q)) (tasks w) = Some running →
  run env syncURL authHeaders q w
  = (Returned
       {| ok := false;
          error := Some "Sync is already running";
          taskId := None; status := None; logs := None;
          runningTask :=
            Some {| RunningTask.taskId := source_task.task_id running;
                    RunningTask.status :=
                      statusUrl env (workspaceId q) (source_task.task_id running) (syncId q);
                    RunningTask.logs :=
                      logsUrl env (workspaceId q) (source_task.task_id running) (syncId q) |} |},
     w).
Proof.
  intros Hsync Hrunning. enter_run. pass_check Hsync. by pass_check Hrunning.
Qed.

Lemma run_no_service (q : Query) (w : World) (sync : configurationObjectLink.row) :
  List.find (sync_where (syncId q) (workspaceId q)) (links w) = Some sync →
  List.find (running_where (syncId q)) (tasks w) = None →
  configurationObjectLink.from sync = None →
  run env syncURL authHeaders q w = (Returned (failure "Service null not found"), w).
Proof.
  intros Hsync Hrunning Hfrom. enter_run.
  pass_check Hsync. pass_check Hrunning. by pass_check Hfrom.
Qed.

Lemma run_state_thrown (q : Query) (w w1 : World) (sync : configurationObjectLink.row)
    (service : ConfigurationObject) (e : Exn) :
  List.find (sync_where (syncId q) (workspaceId q)) (links w) = Some sync →
  List.find (running_where (syncId q)) (tasks w) = None →
  configurationObjectLink.from sync = Some service →
  loadStateObj q w = (Thrown e, w1) →
  run env syncURL authHeaders q w = (Thrown e, w1).
Proof.
  intros Hsync Hrunning Hfrom Hload. enter_run.
  pass_check Hsync. pass_check Hrunning. pass_check Hfrom. by pass_check Hload.
Qed.

Lemma run_no_catalog (q : Query) (w w1 : World) (sync : configurationObjectLink.row)
    (service : ConfigurationObject) (stateObj : option JSON) :
  List.find (sync_where (syncId q) (workspaceId q)) (links w) = Some sync →
  List.find (running_where (syncId q)) (tasks w) = None →
  configurationObjectLink.from sync = Some service →
  loadStateObj q w = (Returned stateObj, w1) →
  catalogFromDb (ServiceConfig.package (config service))
    (ServiceConfig.version (config service))
    (SyncData.storageKey (configurationObjectLink.data sync)) w1
  = (Returned None, w1) →
  run env syncURL authHeaders q w
  = (Returned (failure "Catalog not found. Please run Refresh Catalog in Sync settings"), w1).
Proof.
  intros Hsync Hrunning Hfrom Hload Hcatalog. enter_run.
  pass_check Hsync. pass_check Hrunning. pass_check Hfrom. pass_check Hload.
  by pass_check Hcatalog.
Qed.

(** The path on which every check passes: it ends with the exception of
    the credential manager, or with the request going out and the
    controller's answer deciding the result. *)
Lemma run_checked (q : Query) (w w1 : World) (sync : configurationObjectLink.row)
    (service : ConfigurationObject) (stateObj : option JSON) (catalog : Catalog) :
  List.find (sync_where (syncId q) (workspaceId q)) (links w) = Some sync →
  List.find (running_where (syncId q)) (tasks w) = None →
  configurationObjectLink.from sync = Some service →
  loadStateObj q w = (Returned stateObj, w1) →
  catalogFromDb (ServiceConfig.package (config service))
    (ServiceConfig.version (config service))
    (SyncData.storageKey (configurationObjectLink.data sync)) w1
  = (Returned (Some catalog), w1) →
  run env syncURL authHeaders q w
  = match tryManageOauthCreds env (config service) (configurationObjectLink.fromId sync) with
    | Thrown e => (Thrown e, w1)
    | Returned credentials =>
        let request :=
          read_request syncURL authHeaders q service (randomUUID env) credentials
            (selectStreamsFromCatalog catalog
               (SyncData.streams (configurationObjectLink.data sync))) stateObj in
        (match rpc env request with
         | Returned res => Returned (dispatch_result env q (randomUUID env) res)
         | Thrown e => Thrown e
         end,
         snd (dispatch env request w1))
    end.
Proof.
  intros Hsync Hrunning Hfrom Hload Hcatalog. enter_run.
  pass_check Hsync. pass_check Hrunning. pass_check Hfrom. pass_check Hload.
  pass_check Hcatalog.
  unfold await, dispatch, mret, M_ret.
  destruct (tryManageOauthCreds _ _ _); [|done].
  cbv beta iota. by destruct (rpc env _).
Qed.

Lemma catalogFromDb_world (packageName version storageKey : string) (w : World) :
  ∃ c, catalogFromDb packageName version storageKey w = (Returned c, w).
Proof. unfold catalogFromDb. eauto. Qed.

(** A run that issued a request went through every check. *)
Lemma run_dispatched (q : Query) (w : World) (request : RpcRequest) :
  last (writes w (snd (run env syncURL authHeaders q w))) = Some (Dispatch request) →
  ∃ sync service stateObj w1 catalog credentials,
    List.find (sync_where (syncId q) (workspaceId q)) (links w) = Some sync
    ∧ List.find (running_where (syncId q)) (tasks w) = None
    ∧ configurationObjectLink.from sync = Some service
    ∧ loadStateObj q w = (Returned stateObj, w1)
    ∧ catalogFromDb (ServiceConfig.package (config service))
        (ServiceConfig.version (config service))
        (SyncData.storageKey (configurationObjectLink.data sync)) w1
      = (Returned (Some catalog), w1)
    ∧ tryManageOauthCreds env (config service) (configurationObjectLink.fromId sync)
      = Returned credentials
    ∧ request
      = read_request syncURL authHeaders q service (randomUUID env) credentials
          (selectStreamsFromCatalog catalog
             (SyncData.streams (configurationObjectLink.data sync))) stateObj.
Proof.
  intros Hlast.
  destruct (List.find (sync_where (syncId q) (workspaceId q)) (links w)) as [sync|] eqn:Hsync;
    [|by rewrite run_no_sync, writes_same in Hlast].
  destruct (List.find (running_where (syncId q)) (tasks w)) as [running|] eqn:Hrunning;
    [by rewrite (run_running q w sync running), writes_same in Hlast|].
  destruct (configurationObjectLink.from sync) as [service|] eqn:Hfrom;
    [|by rewrite (run_no_service q w sync), writes_same in Hlast].
  destruct (loadStateObj q w) as [[stateObj|e] w1] eqn:Hload.
  2:{ rewrite (run_state_thrown q w w1 sync service e) in Hlast by done. simpl in Hlast.
      apply loadStateObj_world in Hload as (_ & _ & _ & Hw). rewrite Hw in Hlast.
      by destruct (is_fullSync q). }
  pose proof (loadStateObj_world _ _ _ _ Hload) as (_ & _ & _ & Hw).
  destruct (catalogFromDb_world (ServiceConfig.package (config service))
              (ServiceConfig.version (config service))
              (SyncData.storageKey (configurationObjectLink.data sync)) w1)
    as [[catalog|] Hcatalog].
  2:{ rewrite (run_no_catalog q w w1 sync service stateObj) in Hlast by done.
      simpl in Hlast. rewrite Hw in Hlast. by destruct (is_fullSync q). }
  rewrite (run_checked q w w1 sync service stateObj catalog) in Hlast by done.
  destruct (tryManageOauthCreds env (config service) (configurationObjectLink.fromId sync))
    as [credentials|e] eqn:Hcreds; simpl in Hlast.
  2:{ rewrite Hw in Hlast. by destruct (is_fullSync q). }
  exists sync, service, stateObj, w1, catalog, credentials.
  split_and!; try done.
  unfold writes in Hlast; simpl in Hlast.
  rewrite (loadStateObj_trace _ _ _ _ Hload), <- app_assoc, drop_app_length in Hlast.
  apply last_snoc_eq in Hlast. by simplify_eq.
Qed.

(** *** The [try]/[catch] around the run *)

Lemma runSync_returned (q : Query) (w w' : World) (r : Result) :
  run env syncURL authHeaders q w = (Returned r, w') →
  runSync env syncURL authHeaders q w = (Returned r, w').
Proof. intros H. unfold runSync, try_catch. by rewrite H. Qed.

Lemma runSync_thrown (q : Query) (w w' : World) (e : Exn) :
  run env syncURL authHeaders q w = (Thrown e, w') →
  runSync env syncURL authHeaders q w
  = (Returned (syncError env "Error running sync" e false
                 ("sync: " ++ syncId q ++ " workspace: " ++ workspaceId q)), w').
Proof. intros H. unfold runSync, try_catch. by rewrite H. Qed.

Lemma runSync_world (q : Query) (w : World) :
  snd (runSync env syncURL authHeaders q w) = snd (run env syncURL authHeaders q w).
Proof.
  unfold runSync, try_catch.
  by destruct (run env syncURL authHeaders q w) as [[r|e] w'].
Qed.

(** The handler never lets an exception of the [try] block escape. *)
Lemma runSync_returns (q : Query) (w : World) :
  ∃ r, fst (runSync env syncURL authHeaders q w) = Returned r.
Proof.
  unfold runSync, try_catch.
  destruct (run env syncURL authHeaders q w) as [[r|e] w']; eauto.
Qed.

(** ** The claims about the run *)

(** C5. When no link of the table has the requested id, the requested
    workspace, [deleted = false] and type "sync" (in particular when the
    link with that id is soft-deleted), the run returns the value
    [{ ok: false, error: "Sync <id> not found" }] normally, and leaves the
    world as it was. *)
Theorem sync_not_found (q : Query) (w : World) :
  (∀ l, l ∈ links w →
        ¬ (configurationObjectLink.id l = syncId q
           ∧ configurationObjectLink.workspaceId l = workspaceId q
           ∧ configurationObjectLink.deleted l = false
           ∧ configurationObjectLink.type l = "sync")) →
  runSync env syncURL authHeaders q w
  = (Returned (failure ("Sync " ++ syncId q ++ " not found")), w).
Proof.
  intros Hnone. apply runSync_returned, run_no_sync, find_none_iff.
  intros l Hl. destruct (sync_where (syncId q) (workspaceId q) l) eqn:Hwhere; [|done].
  apply sync_where_spec in Hwhere. by destruct (Hnone l Hl).
Qed.

(** C1 (as the code has it). When the sync link resolves and a task of
    the sync is RUNNING, the run returns [ok = false] with the error text
    "Sync is already running" and a [runningTask] that carries the task id
    of the first such task and the status and logs URLs built from it; the
    world is left exactly as it was, so no checkpoint row is deleted
    (whatever [fullSync] says), no request is dispatched, and a second
    call answers as the first. *)
Theorem already_running_refused (q : Query) (w : World) :
  (∃ l, l ∈ links w
        ∧ configurationObjectLink.id l = syncId q
        ∧ configurationObjectLink.workspaceId l = workspaceId q
        ∧ configurationObjectLink.deleted l = false
        ∧ configurationObjectLink.type l = "sync") →
  (∃ t, t ∈ tasks w ∧ source_task.sync_id t = syncId q ∧ source_task.status t = "RUNNING") →
  ∃ running,
    List.find (running_where (syncId q)) (tasks w) = Some running
    ∧ running ∈ tasks w
    ∧ source_task.sync_id running = syncId q
    ∧ source_task.status running = "RUNNING"
    ∧ runSync env syncURL authHeaders q w
      = (Returned
           {| ok := false;
              error := Some "Sync is already running";
              taskId := None; status := None; logs := None;
              runningTask :=
                Some {| RunningTask.taskId := source_task.task_id running;
                        RunningTask.status :=
                          baseUrl env ++ "/api/" ++ workspaceId q ++ "/sources/tasks?taskId="
                          ++ source_task.task_id running ++ "&syncId=" ++ syncId q;
                        RunningTask.logs :=
                          baseUrl env ++ "/api/" ++ workspaceId q ++ "/sources/logs?taskId="
                          ++ source_task.task_id running ++ "&syncId=" ++ syncId q |} |},
         w)
    ∧ states (snd (runSync env syncURL authHeaders q w)) = states w
    ∧ writes w (snd (runSync env syncURL authHeaders q w)) = []
    ∧ runSync env syncURL authHeaders q (snd (runSync env syncURL authHeaders q w))
      = runSync env syncURL authHeaders q w.
Proof.
  intros (l & Hl & Hlink) (t & Ht & Htask).
  apply sync_where_spec in Hlink. apply running_where_spec in Htask.
  destruct (find_is_some _ _ _ Hl Hlink) as (sync & Hsync & _ & _).
  destruct (find_is_some _ _ _ Ht Htask) as (running & Hrunning & Hin & Hwhere).
  apply running_where_spec in Hwhere as [? ?].
  pose proof (runSync_returned _ _ _ _ (run_running q w sync running Hsync Hrunning)) as Hrun.
  exists running. split_and!; try done.
  - by rewrite Hrun.
  - by rewrite Hrun, writes_same.
  - by rewrite Hrun.
Qed.

(** C2 (as the code has it). A run with [fullSync] "true" or "1" that
    passes the link check, the running-task check and the service check
    deletes exactly the checkpoint rows of the sync: none of them remains
    afterwards, whatever was stored; the deletion is the run's first write,
    and a request dispatched after it carries no [state] field. *)
Theorem fullSync_deletes_state (q : Query) (w : World)
    (sync : configurationObjectLink.row) (service : ConfigurationObject) :
  fullSync q = Some "true" ∨ fullSync q = Some "1" →
  List.find (sync_where (syncId q) (workspaceId q)) (links w) = Some sync →
  List.find (running_where (syncId q)) (tasks w) = None →
  configurationObjectLink.from sync = Some service →
  let w' := snd (runSync env syncURL authHeaders q w) in
  states w' = List.filter (λ r, negb (String.eqb (source_state.sync_id r) (syncId q))) (states w)
  ∧ (∀ r, r ∈ states w' → source_state.sync_id r ≠ syncId q)
  ∧ findMany_state (syncId q) w' = (Returned [], w')
  ∧ (writes w w' = [DeleteState (syncId q)]
     ∨ ∃ request, writes w w' = [DeleteState (syncId q); Dispatch request]
                  ∧ ReadBody.state (body request) = None).
Proof.
  intros Hfull Hsync Hrunning Hfrom w'.
  assert (is_fullSync q = true) as Hfs
    by (unfold is_fullSync; destruct Hfull as [-> | ->]; reflexivity).
  pose proof (loadStateObj_fullSync q w Hfs) as Hload.
  set (w1 := snd (deleteMany_state (syncId q) w)) in *.
  assert (writes w w1 = [DeleteState (syncId q)]) as Hw1
    by (unfold writes; simpl; by rewrite drop_app_length).
  assert (states w' = states w1 ∧
          (writes w w' = [DeleteState (syncId q)]
           ∨ ∃ request, writes w w' = [DeleteState (syncId q); Dispatch request]
                        ∧ ReadBody.state (body request) = None)) as [Hstates Hwrites].
  { subst w'. rewrite runSync_world.
    destruct (catalogFromDb_world (ServiceConfig.package (config service))
                (ServiceConfig.version (config service))
                (SyncData.storageKey (configurationObjectLink.data sync)) w1)
      as [[catalog|] Hcatalog].
    - rewrite (run_checked q w w1 sync service None catalog) by done.
      destruct (tryManageOauthCreds env (config service) (configurationObjectLink.fromId sync))
        as [credentials|e]; simpl; [|by auto].
      split; [done|]. right. eexists. split.
      + unfold writes; simpl. by rewrite <- app_assoc, drop_app_length.
      + reflexivity.
    - rewrite (run_no_catalog q w w1 sync service None) by done. simpl. auto. }
  assert (∀ r, r ∈ states w' → source_state.sync_id r ≠ syncId q) as Hgone.
  { intros r. rewrite Hstates. simpl. rewrite elem_of_filter.
    intros [_ Hne%negb_true_iff]. by apply String.eqb_neq. }
  split_and!; try done.
  unfold findMany_state. f_equal.
  destruct (List.filter _ (states w')) as [|r rest] eqn:Hrows; [done|].
  assert (r ∈ List.filter (λ r, String.eqb (source_state.sync_id r) (syncId q)) (states w'))
    as [Hin Heq%String.eqb_eq]%elem_of_filter by (rewrite Hrows; left).
  by destruct (Hgone r Hin).
Qed.

(** C7. When the run dispatched a request and the sync controller answered
    it with [ok = false], the run returns [ok = false], the controller's
    error (the text "unknown error" when it gave none) and the task id
    that was generated for the run and sent in the request. *)
Theorem dispatch_failure_keeps_taskId (q : Query) (w : World)
    (request : RpcRequest) (response : RpcResponse.t) :
  last (writes w (snd (runSync env syncURL authHeaders q w))) = Some (Dispatch request) →
  rpc env request = Returned response →
  RpcResponse.ok response = false →
  fst (runSync env syncURL authHeaders q w)
  = Returned {| ok := false;
                error := Some (default "unknown error" (RpcResponse.error response));
                taskId := Some (randomUUID env);
                status := None; logs := None; runningTask := None |}
  ∧ ReadQuery.taskId (query request) = randomUUID env
  ∧ (∀ e, RpcResponse.error response = Some e →
          fst (runSync env syncURL authHeaders q w)
          = Returned {| ok := false; error := Some e; taskId := Some (randomUUID env);
                        status := None; logs := None; runningTask := None |}).
Proof.
  intros Hlast Hrpc Hok. rewrite runSync_world in Hlast.
  destruct (run_dispatched q w request Hlast)
    as (sync & service & stateObj & w1 & catalog & credentials
        & Hsync & Hrunning & Hfrom & Hload & Hcatalog & Hcreds & Hrequest).
  pose proof (run_checked q w w1 sync service stateObj catalog
                Hsync Hrunning Hfrom Hload Hcatalog) as Hrun.
  rewrite Hcreds in Hrun. simpl in Hrun. rewrite <- Hrequest, Hrpc in Hrun.
  rewrite (runSync_returned _ _ _ _ Hrun). unfold dispatch_result. rewrite Hok. simpl.
  split_and!; [done | by rewrite Hrequest |].
  intros e He. by rewrite He.
Qed.

(** C8 (as the code has it). When the credential manager throws after the
    task id has been generated, no request is dispatched (no stale
    credentials are sent), and the run returns what [syncError] makes of
    the message "Error running sync", the exception, the sync id and the
    workspace id; the generated task id is not among its inputs, and the
    result is the same whichever id was generated. *)
Theorem credential_failure_is_generic (q : Query) (w w1 : World)
    (sync : configurationObjectLink.row) (service : ConfigurationObject)
    (stateObj : option JSON) (catalog : Catalog) (e : Exn) :
  List.find (sync_where (syncId q) (workspaceId q)) (links w) = Some sync →
  List.find (running_where (syncId q)) (tasks w) = None →
  configurationObjectLink.from sync = Some service →
  loadStateObj q w = (Returned stateObj, w1) →
  catalogFromDb (ServiceConfig.package (config service))
    (ServiceConfig.version (config service))
    (SyncData.storageKey (configurationObjectLink.data sync)) w1
  = (Returned (Some catalog), w1) →
  tryManageOauthCreds env (config service) (configurationObjectLink.fromId sync) = Thrown e →
  runSync env syncURL authHeaders q w
  = (Returned (syncError env "Error running sync" e false
                 ("sync: " ++ syncId q ++ " workspace: " ++ workspaceId q)), w1)
  ∧ (∀ request, Dispatch request ∉ writes w w1)
  ∧ (∀ uuid, runSync (with_randomUUID uuid env) syncURL authHeaders q w
             = runSync env syncURL authHeaders q w).
Proof.
  intros Hsync Hrunning Hfrom Hload Hcatalog Hcreds. split_and!.
  - apply runSync_thrown. rewrite (run_checked q w w1 sync service stateObj catalog) by done.
    by rewrite Hcreds.
  - intros request. apply loadStateObj_world in Hload as (_ & _ & _ & ->).
    destruct (is_fullSync q); [intros [[=]|Hin%elem_of_nil]%elem_of_cons | intros Hin%elem_of_nil];
      done.
  - intros uuid. unfold runSync, try_catch.
    assert (∀ env', tryManageOauthCreds env' = tryManageOauthCreds env →
                    run env' syncURL authHeaders q w = (Thrown e, w1)) as Hany.
    { intros env' Henv'. enter_run.
      pass_check Hsync. pass_check Hrunning. pass_check Hfrom. pass_check Hload.
      pass_check Hcatalog.
      unfold await. by rewrite Henv', Hcreds. }
    by rewrite !Hany.
Qed.


(** C6. Without [fullSync], a sync whose only checkpoint row has the
    stream "_LEGACY_STATE" loads that row's state blob itself; one whose
    only row has the stream "_GLOBAL_STATE" loads the one-element list
    [[{ type: "GLOBAL", global: blob }]]; and a sync without rows loads no
    state at all, in which case a request the run dispatches has no
    [state] field. *)
Theorem state_round_trip (q : Query) (w : World) :
  let stateRows :=
    List.filter (λ r, String.eqb (source_state.sync_id r) (syncId q)) (states w) in
  (∀ r, is_fullSync q = false → stateRows = [r] →
        source_state.stream r = "_LEGACY_STATE" →
        loadStateObj q w = (Returned (Some (source_state.state r)), w))
  ∧ (∀ r, is_fullSync q = false → stateRows = [r] →
          source_state.stream r = "_GLOBAL_STATE" →
          loadStateObj q w
          = (Returned (Some (JArr [JObj {[ "type" := JStr "GLOBAL";
                                           "global" := source_state.state r ]}])), w))
  ∧ (stateRows = [] →
     fst (loadStateObj q w) = Returned None
     ∧ ∀ request,
         last (writes w (snd (runSync env syncURL authHeaders q w))) = Some (Dispatch request) →
         ReadBody.state (body request) = None).
Proof.
  intros stateRows. split_and!.
  - intros r Hfull Hrows Hstream. rewrite loadStateObj_incremental by done.
    fold stateRows. rewrite Hrows. unfold decode_state. by rewrite Hstream.
  - intros r Hfull Hrows Hstream. rewrite loadStateObj_incremental by done.
    fold stateRows. rewrite Hrows. unfold decode_state. by rewrite Hstream.
  - intros Hrows.
    assert (fst (loadStateObj q w) = Returned None) as Hnone.
    { destruct (is_fullSync q) eqn:Hfull.
      - by rewrite loadStateObj_fullSync.
      - rewrite loadStateObj_incremental by done. fold stateRows. by rewrite Hrows. }
    split; [done|]. intros request Hlast. rewrite runSync_world in Hlast.
    destruct (run_dispatched q w request Hlast)
      as (sync & service & stateObj & w1 & catalog & credentials
          & _ & _ & _ & Hload & _ & _ & ->).
    rewrite Hload in Hnone. simpl in Hnone. by simplify_eq.
Qed.


(** *** The statements before the [try] block *)

(** With the service token in the authorization header and the
    controller's URL configured, the handler is the run with that URL
    and the token as header. *)
Lemma handler_with_service_token (key url : string) (q : Query) (w : World) :
  SYNCCTL_AUTH_KEY env = Some key →
  authorization env = Some ("Bearer " ++ key) →
  key ≠ "" →
  SYNCCTL_URL env = Some url →
  handler env q w = runSync env url {[ "Authorization" := "Bearer " ++ key ]} q w.
Proof.
  intros Hkey Hauth Hne Hurl. unfold handler. rewrite Hkey, Hauth, Hurl.
  cbv beta iota zeta delta [from_option id]. rewrite replace_prefix.
  change ("" ++ key) with key. rewrite String.eqb_refl.
  unfold truthy. destruct (String.eqb_spec key ""); [done|].
  by destruct (String.eqb_spec ("Bearer " ++ key) "").
Qed.

(** Without the service token and without a user the handler throws
    before the [try] block is entered, and the world is not touched. *)
Lemma handler_unauthorized (q : Query) (w : World) :
  authorization env = None →
  getUser env = None →
  handler env q w = (Thrown (ApiError "Authorization Required" 401), w).
Proof.
  intros Hauth Huser. unfold handler. rewrite Hauth, Huser.
  cbv beta iota zeta delta [from_option id]. change (truthy (JStr "")) with false.
  rewrite orb_true_r. reflexivity.
Qed.

End Run.

(** ** The claims on concrete runs *)


(** Two per-stream rows decode to two STREAM messages. *)
Example per_stream_example :
  decode_state [ state_row "sync1" "ns1.orders" (JNum 3); state_row "sync1" "customers" (JNum 4) ]
  = Returned (Some (JArr [ stream_message (Some "ns1") "orders" (JNum 3);
                           stream_message None "customers" (JNum 4) ])).
Proof. reflexivity. Qed.


(** A soft-deleted link with the requested id is not found. *)
Lemma sync_not_found_soft_deleted :
  runSync (example_env (Returned JNull) (Returned response_ok)) "http://syncctl" ∅
    (example_query None)
    (example_world [example_link true (Some example_service)] [] [])
  = (Returned (failure "Sync sync1 not found"),
     example_world [example_link true (Some example_service)] [] []).
Proof.
  apply (sync_not_found (example_env (Returned JNull) (Returned response_ok))
           "http://syncctl" ∅ (example_query None)
           (example_world [example_link true (Some example_service)] [] [])).
  intros l Hl. apply list_elem_of_singleton in Hl. subst l. simpl.
  intros (_ & _ & Hdeleted & _). discriminate Hdeleted.
Defined.

(** A full sync requested while a task is running deletes nothing and
    dispatches nothing. *)
Lemma already_running_example :
  let w := example_world [example_link false (Some example_service)] [running_task]
             [state_row "sync1" "users" (JNum 1)] in
  let w' := snd (runSync (example_env (Returned JNull) (Returned response_ok))
                   "http://syncctl" ∅ (example_query (Some "true")) w) in
  states w' = states w ∧ writes w w' = [].
Proof.
  intros w w'.
  destruct (already_running_refused (example_env (Returned JNull) (Returned response_ok))
              "http://syncctl" ∅ (example_query (Some "true")) w)
    as (running & _ & _ & _ & _ & _ & Hstates & Hwrites & _).
  - exists (example_link false (Some example_service)).
    split; [left | repeat split; reflexivity].
  - exists running_task. split; [left | split; reflexivity].
  - split; [exact Hstates | exact Hwrites].
Defined.

(** C1, as the claim words it, fails: the error text of the refusal is
    "Sync is already running", not "already running". *)
Lemma already_running_error_text :
  let result :=
    fst (runSync (example_env (Returned JNull) (Returned response_ok)) "http://syncctl" ∅
           (example_query None)
           (example_world [example_link false (Some example_service)] [running_task] [])) in
  returned_error result = Some "Sync is already running"
  ∧ returned_error result ≠ Some "already running".
Proof. split; [reflexivity | discriminate]. Qed.

(** A full sync of a sync with a service deletes the rows of that sync
    and keeps those of the others. *)
Lemma fullSync_example :
  states (snd (runSync (example_env (Returned JNull) (Returned response_ok))
                 "http://syncctl" ∅ (example_query (Some "1"))
                 (example_world [example_link false (Some example_service)] []
                    [ state_row "sync1" "users" (JNum 1);
                      state_row "sync2" "users" (JNum 2);
                      state_row "sync1" "_GLOBAL_STATE" (JNum 3) ])))
  = [ state_row "sync2" "users" (JNum 2) ].
Proof.
  destruct (fullSync_deletes_state (example_env (Returned JNull) (Returned response_ok))
              "http://syncctl" ∅ (example_query (Some "1"))
              (example_world [example_link false (Some example_service)] []
                 [ state_row "sync1" "users" (JNum 1);
                   state_row "sync2" "users" (JNum 2);
                   state_row "sync1" "_GLOBAL_STATE" (JNum 3) ])
              (example_link false (Some example_service)) example_service)
    as (Hstates & _).
  - right. reflexivity.
  - reflexivity.
  - reflexivity.
  - reflexivity.
  - exact Hstates.
Defined.

(** C2, as the claim words it, fails: a full sync whose link passes the
    link check and the running-task check but has no service returns
    "Service null not found" before anything is deleted, and the
    checkpoint rows of the sync remain. *)
Lemma fullSync_without_service_keeps_state :
  let w := example_world [example_link false None] [] [state_row "sync1" "users" (JNum 1)] in
  let q := example_query (Some "true") in
  let run := runSync (example_env (Returned JNull) (Returned response_ok))
               "http://syncctl" ∅ q w in
  is_fullSync q = true
  ∧ fst (findFirst_sync (syncId q) (workspaceId q) w) = Returned (Some (example_link false None))
  ∧ fst (findFirst_running (syncId q) w) = Returned None
  ∧ returned_error (fst run) = Some "Service null not found"
  ∧ fst (findMany_state (syncId q) (snd run)) = Returned [state_row "sync1" "users" (JNum 1)].
Proof. repeat split; reflexivity. Qed.

(** The controller answers [{ ok: false, error: "boom" }]: the result has
    the error and the generated task id. *)
Lemma dispatch_failure_example :
  fst (runSync (example_env (Returned JNull) (Returned response_boom)) "http://syncctl" ∅
         (example_query None)
         (example_world [example_link false (Some example_service)] [] []))
  = Returned {| ok := false; error := Some "boom"; taskId := Some "task-42";
                status := None; logs := None; runningTask := None |}.
Proof.
  destruct (dispatch_failure_keeps_taskId
              (example_env (Returned JNull) (Returned response_boom)) "http://syncctl" ∅
              (example_query None)
              (example_world [example_link false (Some example_service)] [] [])
              (read_request "http://syncctl" ∅ (example_query None) example_service "task-42"
                 JNull (selectStreamsFromCatalog example_catalog example_selection) None)
              response_boom)
    as (_ & _ & Herror).
  - reflexivity.
  - reflexivity.
  - reflexivity.
  - apply (Herror "boom"). reflexivity.
Defined.

(** The credential manager throws: the generic error comes back and the
    world is untouched. *)
Lemma credential_failure_example :
  runSync (example_env (Thrown (Error "token refresh failed")) (Returned response_ok))
    "http://syncctl" ∅ (example_query None)
    (example_world [example_link false (Some example_service)] [] [])
  = (Returned (failure "Error running sync: token refresh failed"),
     example_world [example_link false (Some example_service)] [] []).
Proof.
  destruct (credential_failure_is_generic
              (example_env (Thrown (Error "token refresh failed")) (Returned response_ok))
              "http://syncctl" ∅ (example_query None)
              (example_world [example_link false (Some example_service)] [] [])
              (example_world [example_link false (Some example_service)] [] [])
              (example_link false (Some example_service)) example_service None
              example_catalog (Error "token refresh failed"))
    as (Hrun & _).
  - reflexivity.
  - reflexivity.
  - reflexivity.
  - reflexivity.
  - reflexivity.
  - reflexivity.
  - exact Hrun.
Defined.

(** C8, as the claim words it, fails: when the credential manager throws,
    the result carries no task id under the modelled [syncError]; and no
    [syncError] at all could attach the generated id, since the result is
    the same for any two ids the run may have drawn. *)
Lemma credential_failure_drops_taskId :
  let w := example_world [example_link false (Some example_service)] [] [] in
  let run syncError uuid :=
    fst (runSync (example_env_with syncError uuid (Thrown (Error "token refresh failed"))
                    (Returned response_ok))
           "http://syncctl" ∅ (example_query None) w) in
  returned_taskId (run syncError_model "task-42") = None
  ∧ returned_taskId (run syncError_model "task-42") ≠ Some "task-42"
  ∧ ¬ (∃ syncError, ∀ uuid, returned_taskId (run syncError uuid) = Some uuid).
Proof.
  split_and!; [reflexivity | discriminate |].
  intros [syncError Hall].
  pose proof (Hall "task-1") as H1. pose proof (Hall "task-2") as H2.
  vm_compute in H1, H2. congruence.
Qed.


(** A single legacy row is loaded as it is. *)
Lemma legacy_state_example :
  let w := example_world [example_link false (Some example_service)] []
             [ state_row "sync1" "_LEGACY_STATE" (JObj {[ "cursor" := JNum 7 ]}) ] in
  loadStateObj (example_query None) w = (Returned (Some (JObj {[ "cursor" := JNum 7 ]})), w).
Proof.
  intros w.
  destruct (state_round_trip (example_env (Returned JNull) (Returned response_ok))
              "http://syncctl" ∅ (example_query None) w) as (Hlegacy & _).
  apply (Hlegacy (state_row "sync1" "_LEGACY_STATE" (JObj {[ "cursor" := JNum 7 ]})));
    reflexivity.
Defined.


(** A legacy row next to a per-stream row: only the latter is decoded. *)
Example mixed_batch_example :
  decode_state [ state_row "sync1" "_LEGACY_STATE" (JNum 1); state_row "sync1" "users" (JNum 2) ]
  = Returned (Some (JArr [ stream_message None "users" (JNum 2) ])).
Proof. reflexivity. Qed.

(** The example environment authorizes with the service token: the
    handler is the run. *)
Example handler_example (q : Query) (w : World) :
  handler (example_env (Returned JNull) (Returned response_ok)) q w
  = runSync (example_env (Returned JNull) (Returned response_ok)) "http://syncctl"
      {[ "Authorization" := "Bearer secret" ]} q w.
Proof. by apply handler_with_service_token. Qed.

(** * Further properties of the run *)

Section MoreRun.
Context (env : Env) (syncURL : string) (authHeaders : gmap string string).

(** Where a run can leave the world: as it found it, as the loading of
    the state left it, or with one request logged after that. *)
Lemma run_world_cases (q : Query) (w : World) :
  snd (run env syncURL authHeaders q w) = w
  ∨ ∃ o w1, loadStateObj q w = (o, w1)
            ∧ (snd (run env syncURL authHeaders q w) = w1
               ∨ ∃ request, snd (run env syncURL authHeaders q w)
                            = snd (dispatch env request w1)).
Proof.
  destruct (List.find (sync_where (syncId q) (workspaceId q)) (links w)) as [sync|] eqn:Hsync;
    [|left; by rewrite run_no_sync].
  destruct (List.find (running_where (syncId q)) (tasks w)) as [running|] eqn:Hrunning;
    [left; by rewrite (run_running env syncURL authHeaders q w sync running)|].
  destruct (configurationObjectLink.from sync) as [service|] eqn:Hfrom;
    [|left; by rewrite (run_no_service env syncURL authHeaders q w sync)].
  right. destruct (loadStateObj q w) as [[stateObj|e] w1] eqn:Hload.
  2:{ exists (Thrown e), w1. split; [done|]. left.
      by rewrite (run_state_thrown env syncURL authHeaders q w w1 sync service e). }
  exists (Returned stateObj), w1. split; [done|].
  destruct (catalogFromDb_world (ServiceConfig.package (config service))
              (ServiceConfig.version (config service))
              (SyncData.storageKey (configurationObjectLink.data sync)) w1)
    as [[catalog|] Hcatalog].
  2:{ left. by rewrite (run_no_catalog env syncURL authHeaders q w w1 sync service stateObj). }
  rewrite (run_checked env syncURL authHeaders q w w1 sync service stateObj catalog) by done.
  destruct (tryManageOauthCreds env (config service) (configurationObjectLink.fromId sync));
    simpl; eauto.
Qed.

(** X1. The controller answers [ok]: the run returns [ok = true] with the
    task id it generated and sent, and the status and logs URLs built from
    the base URL, the workspace, that task id and the sync id. *)
Theorem dispatch_success_result (q : Query) (w : World)
    (request : RpcRequest) (response : RpcResponse.t) :
  last (writes w (snd (runSync env syncURL authHeaders q w))) = Some (Dispatch request) →
  rpc env request = Returned response →
  RpcResponse.ok response = true →
  fst (runSync env syncURL authHeaders q w)
  = Returned {| ok := true;
                error := None;
                taskId := Some (randomUUID env);
                status := Some (baseUrl env ++ "/api/" ++ workspaceId q
                                ++ "/sources/tasks?taskId=" ++ randomUUID env
                                ++ "&syncId=" ++ syncId q);
                logs := Some (baseUrl env ++ "/api/" ++ workspaceId q
                              ++ "/sources/logs?taskId=" ++ randomUUID env
                              ++ "&syncId=" ++ syncId q);
                runningTask := None |}
  ∧ ReadQuery.taskId (query request) = randomUUID env
  ∧ ReadQuery.syncId (query request) = syncId q.
Proof.
  intros Hlast Hrpc Hok. rewrite runSync_world in Hlast.
  destruct (run_dispatched env syncURL authHeaders q w request Hlast)
    as (sync & service & stateObj & w1 & catalog & credentials
        & Hsync & Hrunning & Hfrom & Hload & Hcatalog & Hcreds & Hrequest).
  pose proof (run_checked env syncURL authHeaders q w w1 sync service stateObj catalog
                Hsync Hrunning Hfrom Hload Hcatalog) as Hrun.
  rewrite Hcreds in Hrun. simpl in Hrun. rewrite <- Hrequest, Hrpc in Hrun.
  rewrite (runSync_returned _ _ _ _ _ _ _ Hrun). unfold dispatch_result. rewrite Hok.
  by rewrite Hrequest.
Qed.

(** X2. The call to the controller itself throws (the request went out,
    no answer came back): the run returns what [syncError] makes of the
    exception, the sync id and the workspace id, and nothing else of the
    run enters that result. *)
Theorem dispatch_thrown_is_generic (q : Query) (w : World) (request : RpcRequest) (e : Exn) :
  last (writes w (snd (runSync env syncURL authHeaders q w))) = Some (Dispatch request) →
  rpc env request = Thrown e →
  fst (runSync env syncURL authHeaders q w)
  = Returned (syncError env "Error running sync" e false
                ("sync: " ++ syncId q ++ " workspace: " ++ workspaceId q)).
Proof.
  intros Hlast Hrpc. rewrite runSync_world in Hlast.
  destruct (run_dispatched env syncURL authHeaders q w request Hlast)
    as (sync & service & stateObj & w1 & catalog & credentials
        & Hsync & Hrunning & Hfrom & Hload & Hcatalog & Hcreds & Hrequest).
  pose proof (run_checked env syncURL authHeaders q w w1 sync service stateObj catalog
                Hsync Hrunning Hfrom Hload Hcatalog) as Hrun.
  rewrite Hcreds in Hrun. simpl in Hrun. rewrite <- Hrequest, Hrpc in Hrun.
  by rewrite (runSync_thrown _ _ _ _ _ _ _ Hrun).
Qed.

(** X3. What a run can change: never the links, the tasks or the
    catalogs; the checkpoint rows of other syncs never, and those of its
    own sync only when [fullSync] is set; and it writes at most one
    deletion (only with [fullSync]) followed by at most one request. *)
Theorem run_footprint (q : Query) (w : World) :
  let w' := snd (runSync env syncURL authHeaders q w) in
  links w' = links w ∧ tasks w' = tasks w ∧ catalogs w' = catalogs w
  ∧ (is_fullSync q = false → states w' = states w)
  ∧ (∀ r, source_state.sync_id r ≠ syncId q → r ∈ states w' ↔ r ∈ states w)
  ∧ ∃ deletions dispatches,
      writes w w' = (deletions ++ dispatches)%list
      ∧ (deletions = [] ∨ (is_fullSync q = true ∧ deletions = [DeleteState (syncId q)]))
      ∧ (dispatches = [] ∨ ∃ request, dispatches = [Dispatch request]).
Proof.
  intros w'. subst w'. rewrite runSync_world.
  destruct (run_world_cases q w) as [-> | (o & w1 & Hload & Hw')].
  { split_and!; try done. exists [], []. rewrite writes_same. auto. }
  assert (links w1 = links w ∧ tasks w1 = tasks w ∧ catalogs w1 = catalogs w
          ∧ (is_fullSync q = false → states w1 = states w)
          ∧ (∀ r, source_state.sync_id r ≠ syncId q → r ∈ states w1 ↔ r ∈ states w)
          ∧ trace w1 = (trace w ++ writes w w1)%list
          ∧ (writes w w1 = [] ∨ (is_fullSync q = true ∧ writes w w1 = [DeleteState (syncId q)])))
    as (Hl & Ht & Hc & Hs & Hother & Htrace & Hdel).
  { pose proof (loadStateObj_world _ _ _ _ Hload) as (? & ? & ? & Hw).
    pose proof (loadStateObj_trace _ _ _ _ Hload) as Htrace.
    split_and!; try done.
    - intros Hfull. rewrite loadStateObj_incremental in Hload by done. by simplify_eq.
    - intros r Hr. destruct (is_fullSync q) eqn:Hfull.
      + rewrite loadStateObj_fullSync in Hload by done. simplify_eq/=.
        rewrite elem_of_filter, negb_true_iff, String.eqb_neq. tauto.
      + rewrite loadStateObj_incremental in Hload by done. by simplify_eq.
    - rewrite Hw. destruct (is_fullSync q); auto. }
  destruct Hw' as [-> | [request ->]].
  - split_and!; try done. exists (writes w w1), [].
    split_and!; [by rewrite app_nil_r | done | by left].
  - simpl. split_and!; try done.
    exists (writes w w1), [Dispatch request]. split_and!; [|done|eauto].
    unfold writes at 1. simpl. by rewrite Htrace, <- app_assoc, drop_app_length.
Qed.

(** X4. When the catalog table does not hold exactly one row for the
    service's package and version and the link's storage key (none, or
    more than one), the run returns "Catalog not found. Please run Refresh
    Catalog in Sync settings" without dispatching; with [fullSync] the
    checkpoint rows of the sync are deleted all the same. *)
Theorem catalog_missing (q : Query) (w w1 : World) (sync : configurationObjectLink.row)
    (service : ConfigurationObject) (stateObj : option JSON) :
  List.find (sync_where (syncId q) (workspaceId q)) (links w) = Some sync →
  List.find (running_where (syncId q)) (tasks w) = None →
  configurationObjectLink.from sync = Some service →
  loadStateObj q w = (Returned stateObj, w1) →
  length (List.filter
            (λ r, String.eqb (source_catalog.key r)
                    (SyncData.storageKey (configurationObjectLink.data sync))
                  && String.eqb (source_catalog.package r)
                       (ServiceConfig.package (config service))
                  && String.eqb (source_catalog.version r)
                       (ServiceConfig.version (config service)))
            (catalogs w)) ≠ 1 →
  runSync env syncURL authHeaders q w
  = (Returned (failure "Catalog not found. Please run Refresh Catalog in Sync settings"), w1)
  ∧ (∀ request, Dispatch request ∉ writes w w1)
  ∧ (is_fullSync q = true →
     writes w w1 = [DeleteState (syncId q)]
     ∧ ∀ r, r ∈ states w1 → source_state.sync_id r ≠ syncId q).
Proof.
  intros Hsync Hrunning Hfrom Hload Hrows.
  pose proof (loadStateObj_world _ _ _ _ Hload) as (_ & _ & Hcatalogs & Hw).
  split_and!.
  - apply runSync_returned. apply (run_no_catalog _ _ _ q w w1 sync service stateObj); try done.
    unfold catalogFromDb. rewrite Hcatalogs. cbv zeta.
    apply Nat.eqb_neq in Hrows. by rewrite Hrows.
  - intros request. rewrite Hw.
    destruct (is_fullSync q); [intros [[=]|Hin%elem_of_nil]%elem_of_cons | intros Hin%elem_of_nil];
      done.
  - intros Hfull. rewrite Hfull in Hw. split; [done|].
    rewrite loadStateObj_fullSync in Hload by done. simplify_eq/=.
    intros r [_ Hne%negb_true_iff]%elem_of_filter. by apply String.eqb_neq.
Qed.

End MoreRun.

(** ** Stream keys *)

Lemma split_not_nil (sep : Ascii.ascii) (s : string) : split sep s ≠ [].
Proof.
  destruct s as [|c rest]; simpl; [done|].
  destruct (Ascii.eqb c sep); [done|]. by destruct (split sep rest).
Qed.

(** Joining the segments with the separator gives the string back. *)
Lemma concat_split (sep : Ascii.ascii) (s : string) :
  String.concat (String sep "") (split sep s) = s.
Proof.
  induction s as [|c rest IH]; simpl; [done|].
  destruct (Ascii.eqb_spec c sep) as [->|Hne].
  - pose proof (split_not_nil sep rest) as Hnil.
    destruct (split sep rest) as [|seg segs]; [done|]. simpl in *. by rewrite IH.
  - pose proof (split_not_nil sep rest) as Hnil.
    destruct (split sep rest) as [|seg segs]; [done|].
    destruct segs as [|seg' segs]; simpl in *; by rewrite <- IH.
Qed.

(** A string of one segment, followed by the separator and more: the
    first segment is that string. *)
Lemma split_app (sep : Ascii.ascii) (a b : string) :
  split sep a = [a] → split sep (a ++ String sep b) = a :: split sep b.
Proof.
  induction a as [|c a IH]; simpl.
  - intros _. by rewrite Ascii.eqb_refl.
  - destruct (Ascii.eqb c sep); [intros [=]|].
    destruct (split sep a) as [|seg segs] eqn:Hsplit; [by destruct (split_not_nil sep a)|].
    intros [= -> ->]. by rewrite IH.
Qed.

Lemma one_segment (s name : string) : split "." s = [name] → s = name.
Proof. intros H. by rewrite <- (concat_split "." s), H. Qed.

Lemma two_segments (s namespace name : string) :
  split "." s = [namespace; name] → s = namespace ++ "." ++ name.
Proof. intros H. by rewrite <- (concat_split "." s), H. Qed.



(** X7. Two catalog streams can share a key: the stream "n" of the
    namespace "ns" and the stream "ns.n" without namespace.  One selection
    entry under "ns.n" then selects both, or neither. *)
Theorem stream_key_collision (ns n : string) (other1 other2 : gmap string JSON)
    (selectedStreams : gmap string JSON) :
  ns ≠ "" →
  let qualified := {| name := n; namespace := Some ns; other := other1 |} in
  let dotted := {| name := ns ++ "." ++ n; namespace := None; other := other2 |} in
  stream_key qualified = ns ++ "." ++ n
  ∧ stream_key dotted = ns ++ "." ++ n
  ∧ is_selected selectedStreams qualified = is_selected selectedStreams dotted
  ∧ length (configured_streams
              (selectStreamsFromCatalog {| streams := [qualified; dotted] |} selectedStreams))
    = (if js_truthy (selectedStreams !! (ns ++ "." ++ n)) then 2 else 0).
Proof.
  intros Hne qualified dotted.
  assert (stream_key qualified = ns ++ "." ++ n) as Hq.
  { unfold qualified. rewrite stream_key_cases. simpl. by destruct (decide (ns = "")). }
  assert (stream_key dotted = ns ++ "." ++ n) as Hd by done.
  split_and!; [done | done | by unfold is_selected; rewrite Hq, Hd |].
  unfold selectStreamsFromCatalog. simpl. unfold is_selected. rewrite Hq, Hd.
  by destruct (js_truthy (selectedStreams !! (ns ++ "." ++ n))).
Qed.


(** X9. A selection entry that is [true] or a non-zero number selects its
    stream, and the emitted entry has exactly two fields: the destination
    sync mode "overwrite" and the stream descriptor. *)
Theorem scalar_directive_entry (selectedStreams : gmap string JSON) (s : AirbyteStream)
    (v : JSON) :
  selectedStreams !! stream_key s = Some v →
  v = JBool true ∨ (∃ n, v = JNum n ∧ n ≠ 0%Z) →
  is_selected selectedStreams s = true
  ∧ configured_stream selectedStreams s
    = {[ "destination_sync_mode" := JStr "overwrite"; "stream" := stream_json s ]}.
Proof.
  intros Hv Hscalar. unfold is_selected, configured_stream. rewrite Hv.
  destruct Hscalar as [-> | (n & -> & Hn)]; simpl.
  - split; [done|]. rewrite insert_empty. apply insert_insert_ne; done.
  - split; [by destruct (Z.eqb_spec n 0)|]. rewrite insert_empty. by apply insert_insert_ne.
Qed.

(** ** The dispatched request and the handler's gate *)

Section MoreHandler.
Context (env : Env).

(** X10. The request carries as [state] the loaded checkpoint state when
    that is truthy, and no [state] field otherwise: a legacy blob that is
    [null], [false], [0] or the empty string is loaded as it is but left
    out of the request, as if the sync had no state. *)
Theorem dispatched_state_field (syncURL : string) (authHeaders : gmap string string)
    (q : Query) (w : World) (request : RpcRequest) :
  last (writes w (snd (runSync env syncURL authHeaders q w))) = Some (Dispatch request) →
  (∃ stateObj w1,
     loadStateObj q w = (Returned stateObj, w1)
     ∧ ReadBody.state (body request) = (if js_truthy stateObj then stateObj else None))
  ∧ (∀ r, is_fullSync q = false →
          List.filter (λ r, String.eqb (source_state.sync_id r) (syncId q)) (states w) = [r] →
          source_state.stream r = "_LEGACY_STATE" →
          ReadBody.state (body request)
          = (if truthy (source_state.state r) then Some (source_state.state r) else None)).
Proof.
  intros Hlast. rewrite runSync_world in Hlast.
  destruct (run_dispatched env syncURL authHeaders q w request Hlast)
    as (sync & service & stateObj & w1 & catalog & credentials
        & _ & _ & _ & Hload & _ & _ & ->).
  split; [by exists stateObj, w1|].
  intros r Hfull Hrows Hstream.
  rewrite loadStateObj_incremental, Hrows in Hload by done.
  unfold decode_state in Hload. rewrite Hstream in Hload. by simplify_eq/=.
Qed.

(** X11. Every request the run dispatches is a POST to the controller's
    URL followed by "/read", with the content type "application/json"
    unless the authorization headers say otherwise, the authorization
    headers themselves, the sync id of the call, the generated task id, and
    the package and version of the service of the link that the lookup
    found. *)
Theorem dispatched_request_shape (syncURL : string) (authHeaders : gmap string string)
    (q : Query) (w : World) (request : RpcRequest) :
  last (writes w (snd (runSync env syncURL authHeaders q w))) = Some (Dispatch request) →
  url request = syncURL ++ "/read"
  ∧ method request = "POST"
  ∧ headers request !! "Content-Type"
    = Some (default "application/json" (authHeaders !! "Content-Type"))
  ∧ (∀ k, k ≠ "Content-Type" → headers request !! k = authHeaders !! k)
  ∧ ReadQuery.syncId (query request) = syncId q
  ∧ ReadQuery.taskId (query request) = randomUUID env
  ∧ ∃ sync service,
      List.find (sync_where (syncId q) (workspaceId q)) (links w) = Some sync
      ∧ configurationObjectLink.from sync = Some service
      ∧ ReadQuery.package (query request) = ServiceConfig.package (config service)
      ∧ ReadQuery.version (query request) = ServiceConfig.version (config service).
Proof.
  intros Hlast. rewrite runSync_world in Hlast.
  destruct (run_dispatched env syncURL authHeaders q w request Hlast)
    as (sync & service & stateObj & w1 & catalog & credentials
        & Hsync & _ & Hfrom & _ & _ & _ & ->).
  simpl. split_and!; try done.
  - rewrite lookup_union. destruct (authHeaders !! "Content-Type"); by rewrite lookup_singleton_eq.
  - intros k Hk. rewrite lookup_union, lookup_singleton_ne by done.
    by destruct (authHeaders !! k).
  - by exists sync, service.
Qed.

(** X12. The service token opens the gate: with a non-empty
    SYNCCTL_AUTH_KEY, any authorization header that equals the key once
    its first "Bearer " is removed (the bare key included) lets the call
    through without asking for a user, and the run dispatches with the
    header "Authorization: Bearer <key>". *)
Theorem service_token_authorizes (key token url : string) (q : Query) (w : World) :
  SYNCCTL_AUTH_KEY env = Some key →
  key ≠ "" →
  authorization env = Some token →
  replace "Bearer " "" token = key →
  SYNCCTL_URL env = Some url →
  handler env q w = runSync env url {[ "Authorization" := "Bearer " ++ key ]} q w.
Proof.
  intros Hkey Hne Hauth Hreplace Hurl.
  assert (token ≠ "") as Htoken by (intros ->; by rewrite <- Hreplace in Hne).
  unfold handler. rewrite Hkey, Hauth, Hurl.
  cbv beta iota zeta delta [from_option id]. rewrite Hreplace, String.eqb_refl.
  unfold truthy. destruct (String.eqb_spec key ""); [done|].
  by destruct (String.eqb_spec token "").
Qed.

(** X13. Without a usable service token (SYNCCTL_AUTH_KEY unset or empty,
    no authorization header, or a header that is not the key) the call
    needs a user: with none the handler throws "Authorization Required"
    (401), and what [verifyAccess] throws escapes too; in both cases no
    table is read and nothing is written.  With a user that has access the
    handler is the run. *)
Theorem user_required_without_token (q : Query) (w : World) :
  let key := default "" (SYNCCTL_AUTH_KEY env) in
  let token := default "" (authorization env) in
  key = "" ∨ token = "" ∨ replace "Bearer " "" token ≠ key →
  (getUser env = None →
   handler env q w = (Thrown (ApiError "Authorization Required" 401), w))
  ∧ (∀ user e, getUser env = Some user →
               verifyAccess env user (workspaceId q) = Thrown e →
               handler env q w = (Thrown e, w))
  ∧ (∀ user url, getUser env = Some user →
                 verifyAccess env user (workspaceId q) = Returned () →
                 SYNCCTL_URL env = Some url →
                 handler env q w
                 = runSync env url
                     (if decide (key = "") then ∅
                      else {[ "Authorization" := "Bearer " ++ key ]}) q w).
Proof.
  intros key token Hclosed.
  assert (negb (String.eqb (replace "Bearer " "" token) key)
          || negb (truthy (JStr token)) || negb (truthy (JStr key)) = true) as Hgate.
  { simpl. destruct Hclosed as [-> | [-> | Hne]].
    - by rewrite orb_true_r.
    - simpl. by rewrite orb_true_r.
    - apply String.eqb_neq in Hne. by rewrite Hne. }
  unfold handler. fold key token. cbv zeta. rewrite Hgate. split_and!.
  - intros Huser. by rewrite Huser.
  - intros user e Huser Haccess. rewrite Huser. unfold mbind, M_bind, await.
    by rewrite Haccess.
  - intros user url Huser Haccess Hurl. rewrite Huser, Hurl.
    unfold mbind, M_bind, await, requireDefined, mret, M_ret. rewrite Haccess.
    cbv beta iota. unfold truthy.
    destruct (decide (key = "")) as [-> | Hne]; [done|].
    by destruct (String.eqb_spec key "").
Qed.

(** X14. With the gate open but SYNCCTL_URL not set, the handler throws
    "env SYNCCTL_URL is not set. ..." before the [try] block: the caller
    gets an exception, not an [{ ok: false }] result, and no table is
    read. *)
Theorem missing_controller_url_escapes (key token : string) (q : Query) (w : World) :
  SYNCCTL_AUTH_KEY env = Some key →
  key ≠ "" →
  authorization env = Some token →
  replace "Bearer " "" token = key →
  SYNCCTL_URL env = None →
  handler env q w
  = (Thrown (Error "env SYNCCTL_URL is not set. Sync Controller is required to run sources"),
     w).
Proof.
  intros Hkey Hne Hauth Hreplace Hurl.
  assert (token ≠ "") as Htoken by (intros ->; by rewrite <- Hreplace in Hne).
  unfold handler. rewrite Hkey, Hauth, Hurl.
  cbv beta iota zeta delta [from_option id]. rewrite Hreplace, String.eqb_refl.
  unfold truthy. destruct (String.eqb_spec key ""); [done|].
  by destruct (String.eqb_spec token "").
Qed.

End MoreHandler.

(** * The configuration store *)

(** X15. [asConfigType] returns its argument unchanged exactly for
    "stream", "service", "function" and "destination", and throws "Unknown
    config type <type>" for every other string. *)
Theorem asConfigType_spec (type : string) :
  (asConfigType type = Returned type
   ↔ type = "stream" ∨ type = "service" ∨ type = "function" ∨ type = "destination")
  ∧ (asConfigType type = Thrown (Error ("Unknown config type " ++ type))
     ↔ type ≠ "stream" ∧ type ≠ "service" ∧ type ≠ "function" ∧ type ≠ "destination")
  ∧ (∀ t, asConfigType type = Returned t → asConfigType t = Returned t).
Proof.
  unfold asConfigType, includes, allConfigTypes. simpl.
  destruct (String.eqb_spec type "stream"); [subst; simpl; split_and!; naive_solver|].
  destruct (String.eqb_spec type "service"); [subst; simpl; split_and!; naive_solver|].
  destruct (String.eqb_spec type "function"); [subst; simpl; split_and!; naive_solver|].
  destruct (String.eqb_spec type "destination"); [subst; simpl; split_and!; naive_solver|].
  simpl. split_and!; naive_solver.
Qed.

Lemma append_inj_l (p a b : string) : p ++ a = p ++ b → a = b.
Proof. induction p as [|c p IH]; simpl; [done|]. intros [=]. auto. Qed.

(** X16. The cache keys keep the lists apart: the key of a list of
    configuration objects determines the workspace and the type, the key
    of the links determines the workspace and does not depend on the
    options, and no key of one kind (objects, links, workspace) equals or
    is a prefix of a key of another kind. *)
Theorem cache_keys_are_separate (ws1 ws2 type1 type2 slug : string)
    (opts1 opts2 : option LinksParams.t) :
  (getConfigObjectCacheKey ws1 type1 = getConfigObjectCacheKey ws2 type2
   → ws1 = ws2 ∧ type1 = type2)
  ∧ (getLinksCacheKey ws1 opts1 = getLinksCacheKey ws2 opts2 → ws1 = ws2)
  ∧ getLinksCacheKey ws1 opts1 = getLinksCacheKey ws1 opts2
  ∧ ¬ getConfigObjectCacheKey ws1 type1 `prefix_of` getLinksCacheKey ws2 opts2
  ∧ ¬ getLinksCacheKey ws2 opts2 `prefix_of` getConfigObjectCacheKey ws1 type1
  ∧ ¬ getWorkspaceCacheKey slug `prefix_of` getConfigObjectCacheKey ws1 type1
  ∧ ¬ getWorkspaceCacheKey slug `prefix_of` getLinksCacheKey ws2 opts2
  ∧ ¬ getConfigObjectCacheKey ws1 type1 `prefix_of` getWorkspaceCacheKey slug
  ∧ ¬ getLinksCacheKey ws2 opts2 `prefix_of` getWorkspaceCacheKey slug.
Proof.
  unfold getConfigObjectCacheKey, getLinksCacheKey, getWorkspaceCacheKey.
  split_and!.
  - intros [= Hws ->]. by apply append_inj_l in Hws.
  - intros [= Hws]. by apply append_inj_l in Hws.
  - done.
  - intros [k Hk]. simplify_eq/=.
  - intros [k Hk]. simplify_eq/=.
  - intros [k Hk]. simplify_eq/=.
  - intros [k Hk]. simplify_eq/=.
  - intros [k Hk]. simplify_eq/=.
  - intros [k Hk]. simplify_eq/=.
Qed.




(** * The JSON fetcher *)

Lemma substring_prefix (n : nat) (s : string) :
  String.prefix (String.substring 0 n s) s = true.
Proof.
  revert s. induction n as [|n IH]; intros [|c s]; simpl; try done.
  destruct (Ascii.ascii_dec c c); [apply IH | done].
Qed.

Lemma substring_length (n : nat) (s : string) :
  n ≤ String.length s → String.length (String.substring 0 n s) = n.
Proof.
  revert s. induction n as [|n IH]; intros [|c s]; simpl; try done; try lia.
  intros Hle. rewrite IH; lia.
Qed.

Section JsonFetchProperties.
Context (JSON_parse : string → option JSON).
Context (JSON_stringify JSON_stringify_indented : JSON → string).
Context (fetch : string → FetchOpts.t → Outcome FetchResponse.t).

#[local] Abbreviation fetcher debug :=
  (jsonFetcher JSON_parse JSON_stringify JSON_stringify_indented fetch debug).

(** X20. Every call of the fetcher makes exactly one request, to the URL
    it was given, whose headers have "Content-Type" and "Accept" set to
    "application/json" whatever the caller passed for them; every other
    header of the caller is passed on unchanged. *)
Theorem jsonFetcher_headers (debug : bool) (url : string) (options : option JsonFetchOpts.t) :
  ∃ request sent,
    requests (fetcher debug url options) = [(url, request)]
    ∧ FetchOpts.headers request = Some sent
    ∧ sent !! "Content-Type" = Some "application/json"
    ∧ sent !! "Accept" = Some "application/json"
    ∧ ∀ k, k ≠ "Content-Type" → k ≠ "Accept" →
           sent !! k = default ∅ (options ≫= JsonFetchOpts.headers) !! k.
Proof.
  exists (fetch_request JSON_stringify options). eexists. split_and!.
  - unfold jsonFetcher. by destruct (fetch url _).
  - reflexivity.
  - by rewrite lookup_insert_ne, lookup_insert_eq.
  - by rewrite lookup_insert_eq.
  - intros k Hc Ha. by rewrite !lookup_insert_ne.
Qed.

(** X21. The method of the request is the caller's when that is a
    non-empty string; otherwise it is POST when the body is truthy and GET
    when it is missing or falsy.  A string body is sent as it is (the
    empty string too, though with GET), any other truthy body as its JSON
    text, and a falsy non-string body is not sent. *)
Theorem jsonFetcher_method_and_body (debug : bool) (url : string)
    (options : option JsonFetchOpts.t) :
  ∃ request,
    requests (fetcher debug url options) = [(url, request)]
    ∧ (∀ m, options ≫= JsonFetchOpts.method = Some m → m ≠ "" →
            FetchOpts.method request = Some m)
    ∧ (options ≫= JsonFetchOpts.method = None ∨ options ≫= JsonFetchOpts.method = Some "" →
       FetchOpts.method request
       = Some (if js_truthy (options ≫= JsonFetchOpts.body) then "POST" else "GET"))
    ∧ (∀ s, options ≫= JsonFetchOpts.body = Some (JStr s) → FetchOpts.body request = Some s)
    ∧ (∀ v, options ≫= JsonFetchOpts.body = Some v → (∀ s, v ≠ JStr s) →
            FetchOpts.body request = (if truthy v then Some (JSON_stringify v) else None))
    ∧ (options ≫= JsonFetchOpts.body = None → FetchOpts.body request = None).
Proof.
  exists (fetch_request JSON_stringify options). split_and!.
  - unfold jsonFetcher. by destruct (fetch url _).
  - intros m Hm Hne. simpl. unfold request_method. rewrite Hm. simpl.
    by destruct (String.eqb_spec m "").
  - intros Hm. simpl. unfold request_method. by destruct Hm as [-> | ->].
  - intros s Hs. simpl. unfold request_body. by rewrite Hs.
  - intros v Hv Hnot. simpl. unfold request_body. rewrite Hv.
    destruct v; try done. by destruct (Hnot s).
  - intros Hnone. simpl. unfold request_body. by rewrite Hnone.
Qed.


(** X23. How an answered call ends: with a [JsonFetchError] exactly when
    the response is not [ok]; with [undefined] exactly when it is [ok] and
    its text is empty; with a value exactly when it is [ok] and its
    non-empty text parses to that value; and with a "Request error: ...
    unparseable JSON" error exactly when it is [ok] and its non-empty text
    does not parse. *)
Theorem jsonFetcher_outcome (debug : bool) (url : string) (options : option JsonFetchOpts.t)
    (response : FetchResponse.t) :
  fetch url (fetch_request JSON_stringify options) = Returned response →
  let result := outcome (fetcher debug url options) in
  ((∃ status message, result = inl (JsonFetchError status message))
   ↔ FetchResponse.ok response = false)
  ∧ (result = inr None
     ↔ FetchResponse.ok response = true ∧ FetchResponse.text response = "")
  ∧ (∀ v, result = inr (Some v)
          ↔ FetchResponse.ok response = true ∧ FetchResponse.text response ≠ ""
            ∧ JSON_parse (FetchResponse.text response) = Some v)
  ∧ ((∃ message, result = inl (RequestError message))
     ↔ FetchResponse.ok response = true ∧ FetchResponse.text response ≠ ""
       ∧ JSON_parse (FetchResponse.text response) = None).
Proof.
  intros Hfetch result. subst result. unfold jsonFetcher. rewrite Hfetch. cbv zeta. simpl.
  destruct (FetchResponse.ok response); simpl; [|split_and!; naive_solver].
  destruct (String.eqb_spec (FetchResponse.text response) "") as [Hempty | Hne];
    [split_and!; naive_solver|].
  destruct (JSON_parse (FetchResponse.text response)); split_and!; naive_solver.
Qed.

(** X24. Debug mode only adds logging: the request and the outcome are
    the same with and without it.  Without it nothing is logged; with it
    an answered call logs exactly one line, at debug level for an [ok]
    response and at warn level otherwise, and a call whose [fetch] throws
    logs nothing and rejects with what was thrown. *)
Theorem jsonFetcher_debug (url : string) (options : option JsonFetchOpts.t) :
  outcome (fetcher true url options) = outcome (fetcher false url options)
  ∧ requests (fetcher true url options) = requests (fetcher false url options)
  ∧ logged (fetcher false url options) = []
  ∧ (∀ response,
       fetch url (fetch_request JSON_stringify options) = Returned response →
       ∃ message,
         logged (fetcher true url options)
         = [(if FetchResponse.ok response then LogDebug else LogWarn, message)])
  ∧ (∀ e debug,
       fetch url (fetch_request JSON_stringify options) = Thrown e →
       logged (fetcher debug url options) = []
       ∧ outcome (fetcher debug url options) = inl (FetchThrew e)).
Proof.
  unfold jsonFetcher. split_and!.
  - by destruct (fetch url _).
  - by destruct (fetch url _).
  - by destruct (fetch url _).
  - intros response ->. simpl. eauto.
  - by intros e debug ->.
Qed.

(** [prettifyJson] gives a text that does not parse back unchanged,
    a text that parses as the indented form of its value, and a falsy
    value as its own text: "undefined", "null", "false", "0" or "". *)
Theorem prettifyJson_spec (s : string) :
  (JSON_parse s = None → prettifyJson JSON_parse JSON_stringify_indented (Some (JStr s)) = s)
  ∧ (∀ v, s ≠ "" → JSON_parse s = Some v →
          prettifyJson JSON_parse JSON_stringify_indented (Some (JStr s))
          = JSON_stringify_indented v)
  ∧ prettifyJson JSON_parse JSON_stringify_indented None = "undefined"
  ∧ prettifyJson JSON_parse JSON_stringify_indented (Some JNull) = "null"
  ∧ prettifyJson JSON_parse JSON_stringify_indented (Some (JBool false)) = "false"
  ∧ prettifyJson JSON_parse JSON_stringify_indented (Some (JNum 0)) = "0"
  ∧ prettifyJson JSON_parse JSON_stringify_indented (Some (JStr "")) = "".
Proof.
  unfold prettifyJson. split_and!; try done.
  - intros Hparse. simpl. destruct (String.eqb_spec s "") as [->|Hne]; [done|].
    simpl. by rewrite Hparse.
  - intros v Hne Hparse. simpl. destruct (String.eqb_spec s ""); [done|].
    simpl. by rewrite Hparse.
Qed.

End JsonFetchProperties.

(** * The further properties on concrete inputs *)

Lemma dispatch_success_example :
  fst (runSync (example_env (Returned JNull) (Returned response_ok)) "http://syncctl" ∅
         (example_query None)
         (example_world [example_link false (Some example_service)] [] []))
  = Returned {| ok := true; error := None; taskId := Some "task-42";
                status := Some "https://console/api/ws1/sources/tasks?taskId=task-42&syncId=sync1";
                logs := Some "https://console/api/ws1/sources/logs?taskId=task-42&syncId=sync1";
                runningTask := None |}.
Proof.
  destruct (dispatch_success_result (example_env (Returned JNull) (Returned response_ok))
              "http://syncctl" ∅ (example_query None)
              (example_world [example_link false (Some example_service)] [] [])
              (example_request None) response_ok) as (Hresult & _).
  - reflexivity.
  - reflexivity.
  - reflexivity.
  - exact Hresult.
Defined.

Lemma dispatch_thrown_example :
  fst (runSync (example_env (Returned JNull) (Thrown (Error "connect ECONNREFUSED")))
         "http://syncctl" ∅ (example_query None)
         (example_world [example_link false (Some example_service)] [] []))
  = Returned (failure "Error running sync: connect ECONNREFUSED").
Proof.
  apply (dispatch_thrown_is_generic
           (example_env (Returned JNull) (Thrown (Error "connect ECONNREFUSED")))
           "http://syncctl" ∅ (example_query None)
           (example_world [example_link false (Some example_service)] [] [])
           (example_request None) (Error "connect ECONNREFUSED")).
  - reflexivity.
  - reflexivity.
Defined.

Lemma run_footprint_example :
  let w := example_world [example_link false (Some example_service)] []
             [state_row "sync1" "users" (JNum 1)] in
  states (snd (runSync (example_env (Returned JNull) (Returned response_ok))
                 "http://syncctl" ∅ (example_query None) w)) = states w.
Proof.
  intros w.
  pose proof (run_footprint (example_env (Returned JNull) (Returned response_ok))
                "http://syncctl" ∅ (example_query None) w) as Hfootprint.
  cbv zeta in Hfootprint. destruct Hfootprint as (_ & _ & _ & Hstates & _).
  apply Hstates. reflexivity.
Defined.

Lemma catalog_missing_example :
  let w := example_world_without_catalog [state_row "sync1" "users" (JNum 1)] in
  runSync (example_env (Returned JNull) (Returned response_ok)) "http://syncctl" ∅
    (example_query (Some "true")) w
  = (Returned (failure "Catalog not found. Please run Refresh Catalog in Sync settings"),
     snd (deleteMany_state "sync1" w)).
Proof.
  intros w.
  destruct (catalog_missing (example_env (Returned JNull) (Returned response_ok))
              "http://syncctl" ∅ (example_query (Some "true")) w
              (snd (deleteMany_state "sync1" w))
              (example_link false (Some example_service)) example_service None)
    as (Hrun & _).
  - reflexivity.
  - reflexivity.
  - reflexivity.
  - reflexivity.
  - simpl. lia.
  - exact Hrun.
Defined.



Lemma stream_key_collision_example :
  length (configured_streams
            (selectStreamsFromCatalog
               {| streams := [ {| name := "b"; namespace := Some "a"; other := ∅ |};
                               {| name := "a.b"; namespace := None; other := ∅ |} ] |}
               {[ "a.b" := JObj ∅ ]}))
  = 2.
Proof.
  pose proof (stream_key_collision "a" "b" ∅ ∅ {[ "a.b" := JObj ∅ ]}) as Hcollision.
  cbv zeta in Hcollision. destruct Hcollision as (_ & _ & _ & Hlength); [discriminate|].
  exact Hlength.
Defined.


Lemma scalar_directive_example :
  configured_stream {[ "a" := JBool true ]} {| name := "a"; namespace := None; other := ∅ |}
  = {[ "destination_sync_mode" := JStr "overwrite";
       "stream" := JObj {[ "name" := JStr "a" ]} ]}.
Proof.
  destruct (scalar_directive_entry {[ "a" := JBool true ]}
              {| name := "a"; namespace := None; other := ∅ |} (JBool true))
    as (_ & Hentry).
  - reflexivity.
  - left. reflexivity.
  - exact Hentry.
Defined.

Lemma falsy_legacy_state_example :
  let w := example_world [example_link false (Some example_service)] []
             [state_row "sync1" "_LEGACY_STATE" JNull] in
  loadStateObj (example_query None) w = (Returned (Some JNull), w)
  ∧ ReadBody.state (body (example_request None)) = None.
Proof.
  intros w. split; [reflexivity|].
  destruct (dispatched_state_field (example_env (Returned JNull) (Returned response_ok))
              "http://syncctl" ∅ (example_query None) w (example_request None))
    as (_ & Hlegacy).
  - reflexivity.
  - apply (Hlegacy (state_row "sync1" "_LEGACY_STATE" JNull)); reflexivity.
Defined.

Lemma dispatched_request_example :
  url (example_request None) = "http://syncctl/read"
  ∧ method (example_request None) = "POST".
Proof.
  destruct (dispatched_request_shape (example_env (Returned JNull) (Returned response_ok))
              "http://syncctl" ∅ (example_query None)
              (example_world [example_link false (Some example_service)] [] [])
              (example_request None)) as (Hurl & Hmethod & _).
  - reflexivity.
  - split; [exact Hurl | exact Hmethod].
Defined.

(** The bare key, without "Bearer ", authorizes as well. *)
Lemma bare_token_example :
  let w := example_world [example_link false (Some example_service)] [] [] in
  handler (gate_env (Some "secret") (Some "http://syncctl") (Some "secret"))
    (example_query None) w
  = runSync (gate_env (Some "secret") (Some "http://syncctl") (Some "secret"))
      "http://syncctl" {[ "Authorization" := "Bearer secret" ]} (example_query None) w.
Proof.
  intros w.
  apply (service_token_authorizes
           (gate_env (Some "secret") (Some "http://syncctl") (Some "secret"))
           "secret" "secret" "http://syncctl" (example_query None) w).
  - reflexivity.
  - discriminate.
  - reflexivity.
  - reflexivity.
  - reflexivity.
Defined.

(** No key is configured: an empty bearer token does not authorize. *)
Lemma no_key_example :
  let w := example_world [example_link false (Some example_service)] [] [] in
  handler (gate_env None (Some "http://syncctl") (Some "Bearer "))
    (example_query None) w
  = (Thrown (ApiError "Authorization Required" 401), w).
Proof.
  intros w.
  pose proof (user_required_without_token
                (gate_env None (Some "http://syncctl") (Some "Bearer "))
                (example_query None) w) as Hgate.
  cbv zeta in Hgate. destruct Hgate as (Hnone & _).
  - left. reflexivity.
  - apply Hnone. reflexivity.
Defined.

Lemma missing_url_example :
  let w := example_world [example_link false (Some example_service)] [] [] in
  handler (gate_env (Some "secret") None (Some "Bearer secret")) (example_query None) w
  = (Thrown (Error "env SYNCCTL_URL is not set. Sync Controller is required to run sources"),
     w).
Proof.
  intros w.
  apply (missing_controller_url_escapes
           (gate_env (Some "secret") None (Some "Bearer secret"))
           "secret" "Bearer secret" (example_query None) w).
  - reflexivity.
  - discriminate.
  - reflexivity.
  - reflexivity.
  - reflexivity.
Defined.




Lemma empty_response_example :
  outcome (example_fetcher
             {| FetchResponse.ok := true; FetchResponse.status := 204;
                FetchResponse.statusText := "No Content"; FetchResponse.text := "" |}
             None)
  = inr None.
Proof.
  pose proof (jsonFetcher_outcome example_parse (λ _, "{}") (λ _, "{}")
                (λ _ _, Returned {| FetchResponse.ok := true; FetchResponse.status := 204;
                                    FetchResponse.statusText := "No Content";
                                    FetchResponse.text := "" |})
                false "https://api.example/" None
                {| FetchResponse.ok := true; FetchResponse.status := 204;
                   FetchResponse.statusText := "No Content"; FetchResponse.text := "" |}
                eq_refl) as Houtcome.
  cbv zeta in Houtcome. destruct Houtcome as (_ & Hundefined & _).
  apply Hundefined. split; reflexivity.
Defined.

(** * Testing a connection *)

Section OnTestProperties.
Context (workspace_id obj_id queryId : string) (rpc : nat → Outcome (option JSON)).

#[local] Abbreviation test_url h :=
  (check_url workspace_id (workspace_id ++ "_" ++ obj_id ++ "_" ++ h ++ "_" ++ queryId)).

(** The loop only appends polls of its URL, at most as many as it has
    rounds left. *)
Lemma poll_calls (url : string) (remaining : nat) (calls : list (string * option string)) :
  ∃ k, k ≤ remaining
       ∧ test_calls (poll rpc url remaining calls) = (calls ++ replicate k (url, None))%list.
Proof.
  revert calls. induction remaining as [|remaining IH]; intros calls.
  - exists 0. simpl. by rewrite app_nil_r.
  - assert (∃ k, k ≤ S remaining
                 ∧ (calls ++ [(url, None)])%list = (calls ++ replicate k (url, None))%list)
      as Hone by (exists 1; split; [lia | done]).
    simpl. destruct (rpc (length calls)) as [[[| | | | |o]|]|]; simpl; try done.
    destruct (js_truthy (o !! "pending")); simpl; [|done].
    destruct (IH (calls ++ [(url, None)])%list) as (k & Hk & ->).
    exists (S k). split; [lia|]. by rewrite <- app_assoc.
Qed.

(** While the answers are pending the loop goes on. *)
Lemma poll_pending (url : string) (n remaining : nat) (calls : list (string * option string)) :
  n ≤ remaining →
  (∀ i, i < n → is_pending (rpc (length calls + i)) = true) →
  poll rpc url remaining calls
  = poll rpc url (remaining - n) (calls ++ replicate n (url, None))%list.
Proof.
  revert remaining calls. induction n as [|n IH]; intros remaining calls Hle Hpending.
  - simpl. by rewrite Nat.sub_0_r, app_nil_r.
  - destruct remaining as [|remaining]; [lia|]. simpl.
    pose proof (Hpending 0 ltac:(lia)) as H0. rewrite Nat.add_0_r in H0.
    unfold is_pending in H0.
    destruct (rpc (length calls)) as [[[| | | | |o]|]|]; try done.
    rewrite H0. simpl. rewrite IH; [by rewrite <- app_assoc | lia |].
    intros i Hi. rewrite length_app. simpl.
    replace (length calls + 1 + i) with (length calls + S i) by lia. apply Hpending. lia.
Qed.

(** X25. A connection test makes one POST and then at most sixty polls,
    all to the same check URL, so never more than 61 calls; when the
    credentials cannot be hashed it makes none, and then, as when the
    POST throws, it returns the "Internal error, see logs for details"
    result instead of throwing. *)
Theorem onTest_call_bound (credentialsHash : Outcome string) :
  let run := onTest workspace_id obj_id queryId credentialsHash rpc in
  length (test_calls run) ≤ 61
  ∧ (∀ e, credentialsHash = Thrown e → run = {| test_result := internal_error; test_calls := [] |})
  ∧ (∀ h, credentialsHash = Returned h →
          ∃ k, k ≤ 60
               ∧ test_calls run
                 = (test_url h, Some "POST") :: replicate k (test_url h, None))
  ∧ (∀ h e, credentialsHash = Returned h → rpc 0 = Thrown e →
            run = {| test_result := internal_error;
                     test_calls := [(test_url h, Some "POST")] |}).
Proof.
  intros run. subst run.
  assert (∀ h, credentialsHash = Returned h →
               ∃ k, k ≤ 60
                    ∧ test_calls (onTest workspace_id obj_id queryId credentialsHash rpc)
                      = (test_url h, Some "POST") :: replicate k (test_url h, None)) as Hcalls.
  { intros h ->. unfold onTest. cbv zeta.
    destruct (poll_calls (test_url h) 60 [(test_url h, Some "POST")]) as (k & Hk & Hpoll).
    destruct (rpc 0) as [[[| | | | |o]|]|]; simpl; eauto; try (exists 0; split; [lia|done]).
    destruct (js_truthy (o !! "error")); simpl; eauto. exists 0. split; [lia|done]. }
  split_and!.
  - destruct credentialsHash as [h|e] eqn:Hhash; [|simpl; lia].
    destruct (Hcalls h eq_refl) as (k & Hk & ->). simpl. rewrite length_replicate. lia.
  - by intros e ->.
  - done.
  - intros h e -> Hrpc. unfold onTest. by rewrite Hrpc.
Qed.

(** X26. The test returns the first poll answer that is not pending, as
    it is: when the POST reports no error, the first [n] polls (n < 60)
    answer pending and the next one does not, the result is that answer
    and exactly [n + 2] calls were made. *)
Theorem onTest_returns_first_settled (h : string) (first res : JSON) (n : nat) :
  n < 60 →
  rpc 0 = Returned (Some first) →
  first ≠ JNull →
  (∀ o, first = JObj o → js_truthy (o !! "error") = false) →
  (∀ i, i < n → is_pending (rpc (S i)) = true) →
  rpc (S n) = Returned (Some res) →
  res ≠ JNull →
  (∀ o, res = JObj o → js_truthy (o !! "pending") = false) →
  onTest workspace_id obj_id queryId (Returned h) rpc
  = {| test_result := res;
       test_calls := (test_url h, Some "POST") :: replicate (S n) (test_url h, None) |}.
Proof.
  intros Hn Hpost Hnull Herror Hpending Hsettled Hres Hdone.
  assert (onTest workspace_id obj_id queryId (Returned h) rpc
          = poll rpc (test_url h) 60 [(test_url h, Some "POST")]) as ->.
  { unfold onTest. rewrite Hpost. destruct first as [| | | | |o]; try done.
    by rewrite (Herror o eq_refl). }
  rewrite (poll_pending (test_url h) n 60) by (done || lia).
  destruct (60 - n) as [|remaining] eqn:Hrem; [lia|]. simpl.
  rewrite length_replicate.
  assert (replicate n (test_url h, @None string) ++ [(test_url h, None)]
          = replicate (S n) (test_url h, None))%list as Hreplicate.
  { clear. induction n as [|n IH]; simpl; [done | by rewrite IH]. }
  rewrite Hsettled. destruct res as [| | | | |o]; try done; try by rewrite Hreplicate.
  rewrite (Hdone o eq_refl). simpl. by rewrite Hreplicate.
Qed.

(** X27. When the POST reports no error and all sixty polls answer
    pending, the test gives up with
    [{ ok: false, error: "Connection test timeout." }] after 61 calls. *)
Theorem onTest_times_out (h : string) (first : JSON) :
  rpc 0 = Returned (Some first) →
  first ≠ JNull →
  (∀ o, first = JObj o → js_truthy (o !! "error") = false) →
  (∀ i, i < 60 → is_pending (rpc (S i)) = true) →
  onTest workspace_id obj_id queryId (Returned h) rpc
  = {| test_result := test_timeout;
       test_calls := (test_url h, Some "POST") :: replicate 60 (test_url h, None) |}.
Proof.
  intros Hpost Hnull Herror Hpending.
  assert (onTest workspace_id obj_id queryId (Returned h) rpc
          = poll rpc (test_url h) 60 [(test_url h, Some "POST")]) as ->.
  { unfold onTest. rewrite Hpost. destruct first as [| | | | |o]; try done.
    by rewrite (Herror o eq_refl). }
  by rewrite (poll_pending (test_url h) 60 60) by (done || lia).
Qed.

(** X28. When the answer to the POST carries a truthy [error], the test
    returns that answer as it is and does not poll. *)
Theorem onTest_post_error (h : string) (o : gmap string JSON) :
  rpc 0 = Returned (Some (JObj o)) →
  js_truthy (o !! "error") = true →
  onTest workspace_id obj_id queryId (Returned h) rpc
  = {| test_result := JObj o; test_calls := [(test_url h, Some "POST")] |}.
Proof. intros Hpost Herror. unfold onTest. by rewrite Hpost, Herror. Qed.

End OnTestProperties.

Lemma settled_test_example :
  onTest "ws1" "service1" "q1" (Returned "abc") (example_poller (Some 2))
  = {| test_result := JObj {[ "ok" := JBool true ]};
       test_calls :=
         ("/api/ws1/sources/check?storageKey=ws1_service1_abc_q1", Some "POST")
         :: replicate 3 ("/api/ws1/sources/check?storageKey=ws1_service1_abc_q1", None) |}.
Proof.
  apply (onTest_returns_first_settled "ws1" "service1" "q1" (example_poller (Some 2)) "abc"
           (JObj {[ "ok" := JBool true ]}) (JObj {[ "ok" := JBool true ]}) 2).
  - lia.
  - reflexivity.
  - discriminate.
  - intros o [= <-]. reflexivity.
  - intros i Hi. destruct i as [|[|i]]; [reflexivity | reflexivity | lia].
  - reflexivity.
  - discriminate.
  - intros o [= <-]. reflexivity.
Defined.

Lemma test_timeout_example :
  test_result (onTest "ws1" "service1" "q1" (Returned "abc") (example_poller None))
  = test_timeout
  ∧ length (test_calls (onTest "ws1" "service1" "q1" (Returned "abc") (example_poller None)))
    = 61.
Proof.
  rewrite (onTest_times_out "ws1" "service1" "q1" (example_poller None) "abc"
             (JObj {[ "ok" := JBool true ]})).
  - split; reflexivity.
  - reflexivity.
  - discriminate.
  - intros o [= <-]. reflexivity.
  - intros i _. reflexivity.
Defined.

Lemma test_post_error_example :
  onTest "ws1" "service1" "q1" (Returned "abc")
    (λ _, Returned (Some (JObj {[ "error" := JStr "bad credentials" ]})))
  = {| test_result := JObj {[ "error" := JStr "bad credentials" ]};
       test_calls :=
         [("/api/ws1/sources/check?storageKey=ws1_service1_abc_q1", Some "POST")] |}.
Proof.
  apply (onTest_post_error "ws1" "service1" "q1"
           (λ _, Returned (Some (JObj {[ "error" := JStr "bad credentials" ]}))) "abc"
           {[ "error" := JStr "bad credentials" ]}).
  - reflexivity.
  - reflexivity.
Defined.
